(** * libbsdf: the sampling core (Sampler, SampleSet2D, Utility, WardAnisotropic)

  A shallow embedding of
    - include/libbsdf/Common/Utility.h
    - include/libbsdf/Brdf/Sampler.h
    - src/Brdf/SampleSet2D.cpp
    - include/libbsdf/ReflectanceModel/WardAnisotropic.h

  C++ [float] is IEEE-754 binary32 and [double] is binary64; both are
  modelled with the executable specification of the Standard Library
  ([SpecFloat], round to nearest even), so that NaN, the infinities and
  the signed zeros behave as they do in the compiled code.  C++ [int] is
  modelled as [Z] with the 32-bit range written out where it matters. *)

From Stdlib Require Import ZArith QArith Lia Bool.
From Stdlib Require Import Floats.SpecFloat.
From stdpp Require Import base list.

Local Open Scope Z_scope.

(* ===================================================================== *)
(** * Scalars *)

(** C++ [float]: binary32. *)
Module F32.
Definition prec : Z := 24.
Definition emax : Z := 128.

Definition float := spec_float.

Definition add : float -> float -> float := SFadd prec emax.
Definition sub : float -> float -> float := SFsub prec emax.
Definition mul : float -> float -> float := SFmul prec emax.
Definition div : float -> float -> float := SFdiv prec emax.
Definition sqrt : float -> float := SFsqrt prec emax.
Definition opp : float -> float := SFopp.

Definition ltb : float -> float -> bool := SFltb.
Definition leb : float -> float -> bool := SFleb.
Definition eqb : float -> float -> bool := SFeqb.

(** Conversion of an integer constant ([0], [1], [4.0f], ...). *)
Definition of_Z (n : Z) : float := binary_normalize prec emax n 0 false.

Definition zero : float := S754_zero false.
Definition one : float := Eval vm_compute in of_Z 1.

(** [std::isfinite]. *)
Definition is_finite (a : float) : bool :=
  match a with
  | S754_zero _ | S754_finite _ _ _ => true
  | S754_infinity _ | S754_nan => false
  end.

Definition is_nan (a : float) : bool :=
  match a with S754_nan => true | _ => false end.

(** The values a C++ [float] can hold. *)
Definition valid (a : float) : Prop := valid_binary prec emax a = true.
End F32.

(** C++ [double]: binary64. *)
Module F64.
Definition prec : Z := 53.
Definition emax : Z := 1024.

Definition float := spec_float.

Definition div : float -> float -> float := SFdiv prec emax.
Definition opp : float -> float := SFopp.

Definition ltb : float -> float -> bool := SFltb.
Definition leb : float -> float -> bool := SFleb.

Definition of_Z (n : Z) : float := binary_normalize prec emax n 0 false.

Definition zero : float := S754_zero false.

(** The implicit conversion [float -> double]; it is exact, the binary32
    mantissa is re-encoded in the canonical binary64 form. *)
Definition of_float (a : F32.float) : float :=
  match a with
  | S754_finite s m e => binary_normalize prec emax (cond_Zopp s (Zpos m)) e false
  | _ => a
  end.
End F64.

Abbreviation float := F32.float.

(** The exact rational value of a float: [(-1)^s * m * 2^e] for a finite
  one (zero for the zeros; the infinities and NaN have none and are dealt
  with by [SF_lt_Q]). *)
Definition SF2Q (a : spec_float) : Q :=
match a with
| S754_finite s m e =>
    match e with
    | Z0 => cond_Zopp s (Zpos m) # 1
    | Zpos p => cond_Zopp s (Zpos m) * 2 ^ Zpos p # 1
    | Zneg p => cond_Zopp s (Zpos m) # 2 ^ p
    end
| _ => 0
end%Q.

(** [a < q] for a float [a] and an exact rational [q]: minus infinity is
  below every rational, plus infinity and NaN below none. *)
Definition SF_lt_Q (a : spec_float) (q : Q) : Prop :=
match a with
| S754_nan => False
| S754_infinity s => s = true
| _ => (SF2Q a < q)%Q
end.

(* ===================================================================== *)
(** * Vectors (Eigen::Vector3f) *)

Module Vec3.
Record t : Type := make { x : float; y : float; z : float }.

Definition add (a b : t) : t :=
  make (F32.add (x a) (x b)) (F32.add (y a) (y b)) (F32.add (z a) (z b)).

(** [a.dot(b)]: Eigen sums the three products with its unrolled reduction,
    which splits them into the first and the last two. *)
Definition dot (a b : t) : float :=
  F32.add (F32.mul (x a) (x b))
          (F32.add (F32.mul (y a) (y b)) (F32.mul (z a) (z b))).

Definition squaredNorm (a : t) : float := dot a a.

(** [a /= n]. *)
Definition div_scalar (a : t) (n : float) : t :=
  make (F32.div (x a) n) (F32.div (y a) n) (F32.div (z a) n).

(** Eigen's [normalize()] / [normalized()]: the vector is divided by its
    norm; a vector whose squared norm is not positive is left as it is. *)
Definition normalized (a : t) : t :=
  let n2 := squaredNorm a in
  if F32.ltb F32.zero n2 then div_scalar a (F32.sqrt n2) else a.
End Vec3.

Abbreviation Vec3 := Vec3.t.

(* ===================================================================== *)
(** * Coordinate systems

  The classes passed for the template parameters [CoordSysT],
  [SrcCoordSysT] and [DestCoordSysT] (SphericalCoordinateSystem and its
  siblings) are declared in headers that are not among the sources; the
  code uses their static functions [toXyz] and [fromXyz], the latter with
  four angles and, for isotropic data, with three. *)

Record CoordSysT : Type := {
  toXyz : float -> float -> float -> float -> Vec3 * Vec3;
  fromXyz : Vec3 -> Vec3 -> float * float * float * float;
  fromXyz_iso : Vec3 -> Vec3 -> float * float * float
}.

(* ===================================================================== *)
(** * Utility.h *)

Module Utility.

Section Ordered.

(** The functions that are templates over an ordered type [T] ([int],
  [float], ...) are modelled over its [operator<]. *)
Context {T : Type}.
Variable lt : T -> T -> bool.

(** [std::min] and [std::max] of <algorithm>. *)
Definition std_min (a b : T) : T := if lt b a then b else a.
Definition std_max (a b : T) : T := if lt a b then b else a.

(** [template <typename T> T clamp(T value, T minValue, T maxValue)] *)
Definition clamp (value minValue maxValue : T) : T :=
  std_max minValue (std_min maxValue value).

(** [template <typename T> int sign(T val)], with [T(0)] as [zero]. *)
Definition sign (zero val : T) : Z :=
  Z.b2z (lt zero val) - Z.b2z (lt val zero).

End Ordered.

(** [std::numeric_limits<float>::epsilon()], 2^-23. *)
Definition epsilon : float := S754_finite false 8388608 (-46).

(** [template <typename T> bool isEqual(T lhs, T rhs)], for [float]. *)
Definition isEqual (lhs rhs : float) : bool :=
  let tolerance :=
    F32.mul
      (F32.mul epsilon
         (std_max F32.ltb (std_max F32.ltb (SFabs lhs) (SFabs rhs)) F32.one))
      (F32.of_Z 2) in
  F32.leb (SFabs (F32.sub lhs rhs)) tolerance.

(** [template <typename T> T lerp(const T& v0, const T& v1, float t)], for
  [float]. *)
Definition lerp (v0 v1 t : float) : float :=
  F32.add v0 (F32.mul (F32.sub v1 v0) t).

(** [template <typename T> T smoothstep(const T& v0, const T& v1,
  const T& t)], for [float]. *)
Definition smoothstep (v0 v1 t : float) : float :=
  let coeff :=
    clamp F32.ltb (F32.div (F32.sub t v0) (F32.sub v1 v0))
          (F32.of_Z 0) (F32.of_Z 1) in
  F32.mul (F32.mul coeff coeff)
          (F32.sub (F32.of_Z 3) (F32.mul (F32.of_Z 2) coeff)).

(** [template <typename T> T smootherstep(const T& v0, const T& v1,
  const T& t)], for [float]. *)
Definition smootherstep (v0 v1 t : float) : float :=
  let coeff :=
    clamp F32.ltb (F32.div (F32.sub t v0) (F32.sub v1 v0))
          (F32.of_Z 0) (F32.of_Z 1) in
  F32.mul (F32.mul (F32.mul coeff coeff) coeff)
          (F32.add
             (F32.mul coeff
                      (F32.sub (F32.mul coeff (F32.of_Z 6)) (F32.of_Z 15)))
             (F32.of_Z 10)).

(** [template <typename T> T hermiteInterpolation3(const T& v0, const T& v1,
  float t)] and [hermiteInterpolation5], for [float]. *)
Definition hermiteInterpolation3 (v0 v1 t : float) : float :=
  let coeff := smoothstep (F32.of_Z 0) (F32.of_Z 1) t in
  lerp v0 v1 coeff.

Definition hermiteInterpolation5 (v0 v1 t : float) : float :=
  let coeff := smootherstep (F32.of_Z 0) (F32.of_Z 1) t in
  lerp v0 v1 coeff.

(** [template <typename SrcCoordSysT, typename DestCoordSysT>
   void convertCoordinateSystem(...)]; the four destination angles are
  returned. *)
Definition convertCoordinateSystem (SrcCoordSysT DestCoordSysT : CoordSysT)
    (srcAngle0 srcAngle1 srcAngle2 srcAngle3 : float)
    : float * float * float * float :=
  let '(inDir, outDir) :=
    toXyz SrcCoordSysT srcAngle0 srcAngle1 srcAngle2 srcAngle3 in
  fromXyz DestCoordSysT inDir outDir.

(** The literal [-0.00001] is a [double]. *)
Definition minus_0_00001 : F64.float :=
  Eval vm_compute in F64.opp (F64.div (F64.of_Z 1) (F64.of_Z 100000)).

(** [inline bool isDownwardDir(const Vec3& dir)] *)
Definition isDownwardDir (dir : Vec3) : bool :=
  F64.ltb (F64.of_float (Vec3.z dir)) minus_0_00001.

(** [template <typename Vec3T> void fixDownwardDir(Vec3T* dir)];
    the updated vector is returned. *)
Definition fixDownwardDir (dir : Vec3) : Vec3 :=
  if F32.ltb (Vec3.z dir) F32.zero then
    let d := Vec3.make (Vec3.x dir) (Vec3.y dir) F32.zero in
    if F32.eqb (Vec3.x d) F32.zero && F32.eqb (Vec3.y d) F32.zero then
      Vec3.make F32.one (Vec3.y d) (Vec3.z d)
    else
      Vec3.normalized d
  else dir.

End Utility.

(* ===================================================================== *)
(** * Control: assertions, exceptions, undefined behaviour

  The functions are modelled as a debug build runs them: a failing
  [assert] aborts the call, [std::vector::at] throws [std::out_of_range]
  and the overflow of a signed multiplication is undefined. *)

Inductive failure : Set :=
| assertion_failed
| out_of_range
| signed_overflow.

Inductive outcome (A : Type) : Type :=
| Returns (a : A)
| Aborts (f : failure).
Arguments Returns {A} a.
Arguments Aborts {A} f.

#[global] Instance outcome_ret : MRet outcome := fun A a => Returns a.
#[global] Instance outcome_bind : MBind outcome := fun A B k m =>
match m with
| Returns a => k a
| Aborts f => Aborts f
end.

(** [assert(b)] of <cassert>. *)
Definition assert (b : bool) : outcome unit :=
if b then Returns tt else Aborts assertion_failed.

Definition INT_MIN : Z := - 2 ^ 31.
Definition INT_MAX : Z := 2 ^ 31 - 1.

(** [a * b] on [int]. *)
Definition int_mul (a b : Z) : outcome Z :=
if (INT_MIN <=? a * b) && (a * b <=? INT_MAX) then Returns (a * b)
else Aborts signed_overflow.

(* ===================================================================== *)
(** * Containers *)

(** [Arrayf] and [Spectrum] are Eigen::ArrayXf. *)
Definition Arrayf : Type := list float.
Definition Spectrum : Type := list float.

Module Eigen.
Section Eigen.
(** What a freshly allocated coefficient holds is not specified. *)
Variable uninit : nat -> float.

(** [a.resize(n)]: nothing happens when the size is [n] already, else the
    array is reallocated and its coefficients are not initialised. *)
Definition resize (a : Arrayf) (n : Z) : Arrayf :=
  if Z.of_nat (length a) =? n then a else map uninit (seq 0 (Z.to_nat n)).

(** [Arrayf::Zero(n)]. *)
Definition Zero (n : Z) : Arrayf := replicate (Z.to_nat n) F32.zero.
End Eigen.
End Eigen.

Module Vector.
Section Vector.
Context {A : Type}.

(** [v.resize(n)] of std::vector: the first [min n (size v)] elements stay,
    the added ones are value-initialised ([dflt]). *)
Definition resize (dflt : A) (v : list A) (n : nat) : list A :=
  take n v ++ replicate (n - length v) dflt.

(** [v.at(i) = a]. *)
Definition at_assign (v : list A) (i : nat) (a : A) : outcome (list A) :=
  if decide (i < length v)%nat then Returns (<[i := a]> v)
  else Aborts out_of_range.
End Vector.
End Vector.

(* ===================================================================== *)
(** * SampleSet2D.cpp *)

Module SampleSet2D.

(** Modelled from the spec: the enumeration [ColorModel] of Global.h, which
  is not among the sources.  The spec has a "color model (monochromatic /
  RGB-like / full spectral)"; the code names [MONOCHROMATIC_MODEL] and
  [SPECTRAL_MODEL] and treats every other model alike. *)
Inductive ColorModel : Set :=
  | MONOCHROMATIC_MODEL
  | RGB_MODEL
  | XYZ_MODEL
  | SPECTRAL_MODEL.

#[global] Instance ColorModel_eq_dec : EqDecision ColorModel.
Proof. solve_decision. Defined.

(** Of [SourceType] the code uses [UNKNOWN_SOURCE] only. *)
Inductive SourceType : Set :=
  | UNKNOWN_SOURCE.

(** The data members. *)
Record t : Type := make {
  spectra_ : list Spectrum;
  thetaAngles_ : Arrayf;
  phiAngles_ : Arrayf;
  equalIntervalTheta_ : bool;
  equalIntervalPhi_ : bool;
  colorModel_ : ColorModel;
  wavelengths_ : Arrayf;
  sourceType_ : SourceType
}.

Definition set_spectra (v : list Spectrum) (this : t) : t :=
  make v (thetaAngles_ this) (phiAngles_ this) (equalIntervalTheta_ this)
       (equalIntervalPhi_ this) (colorModel_ this) (wavelengths_ this)
       (sourceType_ this).

Definition set_angles (theta phi : Arrayf) (this : t) : t :=
  make (spectra_ this) theta phi (equalIntervalTheta_ this)
       (equalIntervalPhi_ this) (colorModel_ this) (wavelengths_ this)
       (sourceType_ this).

Definition set_equalInterval (theta phi : bool) (this : t) : t :=
  make (spectra_ this) (thetaAngles_ this) (phiAngles_ this) theta phi
       (colorModel_ this) (wavelengths_ this) (sourceType_ this).

Definition set_wavelengths (w : Arrayf) (this : t) : t :=
  make (spectra_ this) (thetaAngles_ this) (phiAngles_ this)
       (equalIntervalTheta_ this) (equalIntervalPhi_ this) (colorModel_ this)
       w (sourceType_ this).

Section Methods.

(** Eigen and the rest of libbsdf: the content of fresh coefficients,
  [Arrayf::LinSpaced], [isEqualInterval] and the two constants of
  SphericalCoordinateSystem. *)
Variable uninit : nat -> float.
Variable LinSpaced : Z -> float -> float -> Arrayf.
Variable isEqualInterval : Arrayf -> bool.
Variables MAX_ANGLE0 MAX_ANGLE1 : float.

(** [void SampleSet2D::updateAngleAttributes()] (the log lines left out). *)
Definition updateAngleAttributes (this : t) : t :=
  set_equalInterval (isEqualInterval (thetaAngles_ this))
                    (isEqualInterval (phiAngles_ this)) this.

(** The loop of the constructor and of [resizeWavelengths]:
  [for (size_t i = 0; i < numSamples; ++i)
     { Spectrum sp; sp.resize(numWavelengths); spectra_.at(i) = sp; }],
  with [count] iterations left from index [i]. *)
Fixpoint assign_spectra (count i : nat) (numWavelengths : Z)
    (spectra : list Spectrum) : outcome (list Spectrum) :=
  match count with
  | O => Returns spectra
  | S count' =>
      let sp := Eigen.resize uninit [] numWavelengths in
      spectra' ← Vector.at_assign spectra i sp;
      assign_spectra count' (S i) numWavelengths spectra'
  end.

(** [SampleSet2D::SampleSet2D(numTheta, numPhi, colorModel, numWavelengths,
                             equalIntervalAngles)] *)
Definition ctor (numTheta numPhi : Z) (colorModel : ColorModel)
    (numWavelengths : Z) (equalIntervalAngles : bool) : outcome t :=
  assert ((0 <? numTheta) && (0 <? numPhi));;
  numSamples ← int_mul numTheta numPhi;
  let numSamples := Z.to_nat numSamples in
  let this :=
    make (Vector.resize [] [] numSamples) [] [] false false colorModel []
         UNKNOWN_SOURCE in
  let this :=
    if equalIntervalAngles then
      updateAngleAttributes
        (set_angles (LinSpaced numTheta F32.zero MAX_ANGLE0)
                    (LinSpaced numPhi F32.zero MAX_ANGLE1) this)
    else
      set_angles (Eigen.resize uninit [] numTheta)
                 (Eigen.resize uninit [] numPhi) this in
  let numWavelengths :=
    if decide (colorModel = MONOCHROMATIC_MODEL) then 1
    else if decide (colorModel <> SPECTRAL_MODEL) then 3
    else numWavelengths in
  assert (0 <? numWavelengths);;
  spectra ← assign_spectra numSamples 0 numWavelengths (spectra_ this);
  let this := set_spectra spectra this in
  let this :=
    set_wavelengths (Eigen.resize uninit (wavelengths_ this) numWavelengths)
                    this in
  Returns
    (if bool_decide (colorModel = MONOCHROMATIC_MODEL)
        || bool_decide (colorModel <> SPECTRAL_MODEL)
     then set_wavelengths (Eigen.Zero numWavelengths) this
     else this).

(** [void SampleSet2D::resizeAngles(int numTheta, int numPhi)] *)
Definition resizeAngles (this : t) (numTheta numPhi : Z) : outcome t :=
  assert ((0 <? numTheta) && (0 <? numPhi));;
  numSamples ← int_mul numTheta numPhi;
  let this :=
    set_spectra (Vector.resize [] (spectra_ this) (Z.to_nat numSamples))
                this in
  Returns
    (set_angles (Eigen.resize uninit (thetaAngles_ this) numTheta)
                (Eigen.resize uninit (phiAngles_ this) numPhi) this).

(** [void SampleSet2D::resizeWavelengths(int numWavelengths)]; the product
  of the two sizes is one of [Eigen::Index] values. *)
Definition resizeWavelengths (this : t) (numWavelengths : Z) : outcome t :=
  assert (0 <? numWavelengths);;
  let numSamples :=
    (length (thetaAngles_ this) * length (phiAngles_ this))%nat in
  spectra ← assign_spectra numSamples 0 numWavelengths (spectra_ this);
  let this := set_spectra spectra this in
  Returns
    (set_wavelengths (Eigen.resize uninit (wavelengths_ this) numWavelengths)
                     this).

(** [void SampleSet2D::clampAngles()]: [cwiseMax] and [cwiseMin] of Eigen
  take, coefficient by coefficient, [std::max] and [std::min] with the
  constant. *)
Definition clampAngles (this : t) : t :=
  let theta := map (fun a => Utility.std_max F32.ltb a F32.zero)
                   (thetaAngles_ this) in
  let phi := map (fun a => Utility.std_max F32.ltb a F32.zero)
                 (phiAngles_ this) in
  let this := set_angles theta phi this in
  let theta := map (fun a => Utility.std_min F32.ltb a MAX_ANGLE0)
                   (thetaAngles_ this) in
  let phi := map (fun a => Utility.std_min F32.ltb a MAX_ANGLE1)
                 (phiAngles_ this) in
  set_angles theta phi this.

End Methods.

(** The invariant of the class: one cell for each pair of angles. *)
Definition wf (this : t) : Prop :=
  length (spectra_ this)
  = (length (thetaAngles_ this) * length (phiAngles_ this))%nat.

End SampleSet2D.

(* ===================================================================== *)
(** * Sampler.h *)

(** The classes passed for [InterpolatorT] (LinearInterpolator and its
  siblings) are not among the sources; the Sampler calls their static
  functions [getSpectrum] and [getValue] with four angles and with three, and
  [getSpectrum] on a SampleSet2D with two angles and with one. *)
Record InterpolatorT (SampleSet : Type) : Type := {
  Interpolator_getSpectrum :
    SampleSet -> float -> float -> float -> float -> Spectrum;
  Interpolator_getSpectrum_iso :
    SampleSet -> float -> float -> float -> Spectrum;
  Interpolator_getValue :
    SampleSet -> float -> float -> float -> float -> Z -> float;
  Interpolator_getValue_iso :
    SampleSet -> float -> float -> float -> Z -> float;
  Interpolator_getSpectrum2 : SampleSet2D.t -> float -> float -> Spectrum;
  Interpolator_getSpectrum1 : SampleSet2D.t -> float -> Spectrum
}.
Arguments Interpolator_getSpectrum {SampleSet}.
Arguments Interpolator_getSpectrum_iso {SampleSet}.
Arguments Interpolator_getValue {SampleSet}.
Arguments Interpolator_getValue_iso {SampleSet}.
Arguments Interpolator_getSpectrum2 {SampleSet}.
Arguments Interpolator_getSpectrum1 {SampleSet}.

(** The abstract class Brdf (Brdf.h is not among the sources): the sample set
  it owns and its virtual [fromXyz], with four angles and with three. *)
Record Brdf (SampleSet : Type) : Type := {
  getSampleSet : SampleSet;
  Brdf_fromXyz : Vec3 -> Vec3 -> float * float * float * float;
  Brdf_fromXyz_iso : Vec3 -> Vec3 -> float * float * float
}.
Arguments getSampleSet {SampleSet}.
Arguments Brdf_fromXyz {SampleSet}.
Arguments Brdf_fromXyz_iso {SampleSet}.

Module Sampler.
Section Sampler.

(** SampleSet.h, SampleSet2D.h, SphericalCoordinateSystem.h and <cmath> are
  not among the sources: the class SampleSet with its [isIsotropic], the
  [isIsotropic] of SampleSet2D, the two-angle [fromXyz] of
  SphericalCoordinateSystem and [std::acos]. *)
Context {SampleSet : Type}.
Variable isIsotropic : SampleSet -> bool.
Variable isIsotropic2D : SampleSet2D.t -> bool.
Variable SphericalCoordinateSystem_fromXyz : Vec3 -> float * float.
Variable acos : float -> float.

(** [inDir.z() >= 0.0]: the right operand is a [double]. *)
Definition z_ge_0 (inDir : Vec3) : bool :=
  F64.leb F64.zero (F64.of_float (Vec3.z inDir)).

(** [template <typename CoordSysT, typename InterpolatorT>
   void Sampler::getSpectrum(const SampleSet&, const Vec3&, const Vec3&,
                             Spectrum* spectrum)] *)
Definition getSpectrum (CoordSys : CoordSysT)
    (Interpolator : InterpolatorT SampleSet)
    (samples : SampleSet) (inDir outDir : Vec3) : outcome Spectrum :=
  assert (z_ge_0 inDir);;
  if isIsotropic samples then
    let '(angle0, angle2, angle3) := fromXyz_iso CoordSys inDir outDir in
    Returns (Interpolator_getSpectrum_iso Interpolator samples
               angle0 angle2 angle3)
  else
    let '(angle0, angle1, angle2, angle3) := fromXyz CoordSys inDir outDir in
    Returns (Interpolator_getSpectrum Interpolator samples
               angle0 angle1 angle2 angle3).

(** [template <typename CoordSysT, typename InterpolatorT>
   float Sampler::getValue(const SampleSet&, const Vec3&, const Vec3&, int)] *)
Definition getValue (CoordSys : CoordSysT)
    (Interpolator : InterpolatorT SampleSet)
    (samples : SampleSet) (inDir outDir : Vec3) (wavelengthIndex : Z)
    : outcome float :=
  assert (z_ge_0 inDir);;
  if isIsotropic samples then
    let '(angle0, angle2, angle3) := fromXyz_iso CoordSys inDir outDir in
    Returns (Interpolator_getValue_iso Interpolator samples
               angle0 angle2 angle3 wavelengthIndex)
  else
    let '(angle0, angle1, angle2, angle3) := fromXyz CoordSys inDir outDir in
    Returns (Interpolator_getValue Interpolator samples
               angle0 angle1 angle2 angle3 wavelengthIndex).

(** [template <typename InterpolatorT>
   void Sampler::getSpectrum(const Brdf&, const Vec3&, const Vec3&,
                             Spectrum* spectrum)] *)
Definition getSpectrum_Brdf (Interpolator : InterpolatorT SampleSet)
    (brdf : Brdf SampleSet) (inDir outDir : Vec3) : outcome Spectrum :=
  assert (z_ge_0 inDir);;
  let ss := getSampleSet brdf in
  if isIsotropic ss then
    let '(angle0, angle2, angle3) := Brdf_fromXyz_iso brdf inDir outDir in
    Returns (Interpolator_getSpectrum_iso Interpolator ss
               angle0 angle2 angle3)
  else
    let '(angle0, angle1, angle2, angle3) := Brdf_fromXyz brdf inDir outDir in
    Returns (Interpolator_getSpectrum Interpolator ss
               angle0 angle1 angle2 angle3).

(** [template <typename InterpolatorT>
   float Sampler::getValue(const Brdf&, const Vec3&, const Vec3&, int)] *)
Definition getValue_Brdf (Interpolator : InterpolatorT SampleSet)
    (brdf : Brdf SampleSet) (inDir outDir : Vec3) (wavelengthIndex : Z)
    : outcome float :=
  assert (z_ge_0 inDir);;
  let ss := getSampleSet brdf in
  if isIsotropic ss then
    let '(angle0, angle2, angle3) := Brdf_fromXyz_iso brdf inDir outDir in
    Returns (Interpolator_getValue_iso Interpolator ss
               angle0 angle2 angle3 wavelengthIndex)
  else
    let '(angle0, angle1, angle2, angle3) := Brdf_fromXyz brdf inDir outDir in
    Returns (Interpolator_getValue Interpolator ss
               angle0 angle1 angle2 angle3 wavelengthIndex).

(** [template <typename InterpolatorT>
   void Sampler::getSpectrum(const SampleSet2D&, const Vec3&, Spectrum* spectrum)] *)
Definition getSpectrum_2D (Interpolator : InterpolatorT SampleSet)
    (ss2 : SampleSet2D.t) (inDir : Vec3) : outcome Spectrum :=
  if isIsotropic2D ss2 then
    let inTheta := acos (Vec3.z inDir) in
    Returns (Interpolator_getSpectrum1 Interpolator ss2 inTheta)
  else
    let '(inTheta, inPhi) := SphericalCoordinateSystem_fromXyz inDir in
    Returns (Interpolator_getSpectrum2 Interpolator ss2 inTheta inPhi).

(** [Spectrum SampleSet2D::getSpectrum(const Vec3& inDir) const] of
  SampleSet2D.cpp, which asks the Sampler with the LinearInterpolator. *)
Definition SampleSet2D_getSpectrum
    (LinearInterpolator : InterpolatorT SampleSet)
    (this : SampleSet2D.t) (inDir : Vec3) : outcome Spectrum :=
  sp ← getSpectrum_2D LinearInterpolator this inDir;
  Returns sp.

End Sampler.
End Sampler.

(* ===================================================================== *)
(** * WardAnisotropic.h *)

Module WardAnisotropic.
Section WardAnisotropic.

(** [std::exp] and the constant [PI_F] of Global.h. *)
Variable exp : float -> float.
Variable PI_F : float.

(** [float WardAnisotropic::getResult(inDir, outDir, normalDir, tangentDir,
                                     binormalDir, roughnessX, roughnessY)] *)
Definition getResult (inDir outDir normalDir tangentDir binormalDir : Vec3)
    (roughnessX roughnessY : float) : float :=
  let dotLN := Vec3.dot inDir normalDir in
  let dotVN := Vec3.dot outDir normalDir in
  let H := Vec3.normalized (Vec3.add inDir outDir) in
  let dotHN := Vec3.dot H normalDir in
  let dotHT := Vec3.dot H tangentDir in
  let dotHB := Vec3.dot H binormalDir in
  let sqDotHT :=
    F32.mul (F32.div dotHT roughnessX) (F32.div dotHT roughnessX) in
  let sqDotHB :=
    F32.mul (F32.div dotHB roughnessY) (F32.div dotHB roughnessY) in
  F32.div
    (F32.mul
       (F32.div F32.one (F32.sqrt (F32.mul dotLN dotVN)))
       (exp (F32.div
               (F32.mul (F32.opp (F32.of_Z 2)) (F32.add sqDotHT sqDotHB))
               (F32.add F32.one dotHN))))
    (F32.mul (F32.mul (F32.mul (F32.of_Z 4) PI_F) roughnessX) roughnessY).

(** [float WardAnisotropic::getValue(const Vec3& inDir, const Vec3& outDir)
   const], a method of an object with the members [roughnessX_] and
  [roughnessY_]. *)
Definition getValue (roughnessX_ roughnessY_ : float) (inDir outDir : Vec3)
    : float :=
  let N := Vec3.make F32.zero F32.zero F32.one in
  let T := Vec3.make F32.one F32.zero F32.zero in
  let B := Vec3.make F32.zero (F32.opp F32.one) F32.zero in
  getResult inDir outDir N T B roughnessX_ roughnessY_.

End WardAnisotropic.
End WardAnisotropic.

(** The rule the four queries on a SampleSet are compared with: with the
  isotropy flag set, the three angles of the reduced conversion go to the
  three-angle interpolation; otherwise the four angles of the full
  conversion go to the four-angle interpolation. *)
Definition isotropy_rule {R : Type} (isotropic : bool)
    (angles_iso : float * float * float)
    (angles : float * float * float * float)
    (interpolate_iso : float -> float -> float -> R)
    (interpolate : float -> float -> float -> float -> R) : R :=
  if isotropic then
    let '(angle0, angle2, angle3) := angles_iso in
    interpolate_iso angle0 angle2 angle3
  else
    let '(angle0, angle1, angle2, angle3) := angles in
    interpolate angle0 angle1 angle2 angle3.

(** Floats that are zero or above, or NaN. *)
Definition not_negative (a : float) : Prop :=
  match a with
  | S754_zero s | S754_infinity s | S754_finite s _ _ => s = false
  | S754_nan => True
  end.


(* ===================================================================== *)
(** * Floating-point facts *)


(** A mantissa of [d] binary digits lies in [[2^(d-1), 2^d)]. *)
Lemma digits2_pos_bounds (p : positive) :
  2 ^ (Zpos (digits2_pos p) - 1) <= Zpos p < 2 ^ Zpos (digits2_pos p).
Proof.
  induction p as [p IH|p IH|]; simpl digits2_pos.
  - rewrite Pos2Z.inj_succ, Z.pow_succ_r by lia.
    replace (Z.succ (Zpos (digits2_pos p)) - 1) with (Z.succ (Zpos (digits2_pos p) - 1)) by lia.
    rewrite Z.pow_succ_r by lia. lia.
  - rewrite Pos2Z.inj_succ, Z.pow_succ_r by lia.
    replace (Z.succ (Zpos (digits2_pos p)) - 1) with (Z.succ (Zpos (digits2_pos p) - 1)) by lia.
    rewrite Z.pow_succ_r by lia. lia.
  - simpl. lia.
Qed.

(** Shifting a mantissa to the left. *)
Lemma iter_xO_mul (m n : positive) :
  Zpos (Pos.iter xO m n) = Zpos m * 2 ^ Zpos n.
Proof.
  induction n as [|n IH] using Pos.peano_ind.
  - simpl. lia.
  - rewrite Pos.iter_succ, Pos2Z.inj_succ, Z.pow_succ_r by lia.
    rewrite Pos2Z.inj_xO, IH. lia.
Qed.

Lemma digits2_pos_iter_xO (m n : positive) :
  digits2_pos (Pos.iter xO m n) = (digits2_pos m + n)%positive.
Proof.
  induction n as [|n IH] using Pos.peano_ind.
  - simpl. lia.
  - rewrite Pos.iter_succ. simpl. rewrite IH. lia.
Qed.

(** A mantissa that has the full precision already is not rounded. *)
Lemma binary_round_aux_canonical (prec emax : Z) (s : bool) (m : positive) (e : Z) :
  Zpos (digits2_pos m) = prec ->
  3 - emax - prec <= e <= emax - prec ->
  binary_round_aux prec emax s (Zpos m) e loc_Exact = S754_finite s m e.
Proof.
  intros Hd He.
  unfold binary_round_aux, shr_fexp, fexp, emin. simpl Zdigits2.
  rewrite Hd.
  replace (Z.max (prec + e - prec) (3 - emax - prec) - e) with 0 by lia.
  simpl. rewrite Hd.
  replace (Z.max (prec + e - prec) (3 - emax - prec) - e) with 0 by lia.
  simpl.
  destruct (Z.leb_spec e (emax - prec)); [reflexivity | lia].
Qed.

(** [float -> double] keeps sign and value: the mantissa is shifted to 53
  digits and the exponent lowered by as much. *)
Lemma of_float_finite (s : bool) (m : positive) (e : Z) :
  F32.valid (S754_finite s m e) ->
  exists k : positive,
    Zpos k = 53 - Zpos (digits2_pos m) /\
    F64.of_float (S754_finite s m e)
    = S754_finite s (Pos.iter xO m k) (e - Zpos k).
Proof.
  unfold F32.valid, valid_binary, bounded, canonical_mantissa, fexp, emin, F32.prec, F32.emax.
  intros H. apply andb_true_iff in H as [H1 H2].
  apply Z.eqb_eq in H1. apply Z.leb_le in H2.
  pose proof (Pos2Z.is_pos (digits2_pos m)) as Hpos.
  assert (Hd : Zpos (digits2_pos m) <= 24) by lia.
  assert (He : -149 <= e) by lia.
  exists (Z.to_pos (53 - Zpos (digits2_pos m))).
  split; [lia|].
  set (k := Z.to_pos (53 - Zpos (digits2_pos m))).
  assert (Hk : Zpos k = 53 - Zpos (digits2_pos m)) by (unfold k; lia).
  unfold F64.of_float, binary_normalize.
  assert (Hr : binary_round F64.prec F64.emax s m e = S754_finite s (Pos.iter xO m k) (e - Zpos k)).
  { unfold binary_round, shl_align, fexp, emin, F64.prec, F64.emax.
    replace (Z.max (Zpos (digits2_pos m) + e - 53) (3 - 1024 - 53) - e) with (Zneg k) by lia.
    replace (Z.max (Zpos (digits2_pos m) + e - 53) (3 - 1024 - 53)) with (e - Zpos k) by lia.
    apply binary_round_aux_canonical.
    - rewrite digits2_pos_iter_xO. lia.
    - lia. }
  destruct s; simpl; exact Hr.
Qed.

(** Comparison of a [double] with the literal [-0.00001]. *)
Lemma ltb_minus_0_00001 (s : bool) (m : positive) (e : Z) :
  SFltb (S754_finite s m e) Utility.minus_0_00001 = true <->
  s = true /\ (-69 < e \/ (e = -69 /\ 5902958103587057 < Zpos m)).
Proof.
  unfold SFltb, SFcompare, Utility.minus_0_00001.
  destruct s.
  - destruct (Z.compare_spec e (-69)) as [He|He|He].
    + rewrite Pos.compare_cont_spec. cbn [Pos.switch_Eq].
      rewrite Pos2Z.inj_compare.
      destruct (Z.compare_spec (Zpos m) 5902958103587057) as [Hm|Hm|Hm]; cbn [CompOpp].
      * split; [discriminate|]. intros [_ [?|[_ ?]]]; lia.
      * split; [discriminate|]. intros [_ [?|[_ ?]]]; lia.
      * split; [intros _; split; [reflexivity|lia] | reflexivity].
    + split; [discriminate | lia].
    + split; [intros _; split; [reflexivity | lia] | reflexivity].
  - split; [discriminate | intros [? _]; discriminate].
Qed.

(** The test of [isDownwardDir] on a finite [float]: the value is compared
  with the exact [-1/100000]; no binary32 number lies between the literal
  and it. *)
Lemma of_float_ltb_minus_0_00001 (s : bool) (m : positive) (e : Z) :
  F32.valid (S754_finite s m e) ->
  F64.ltb (F64.of_float (S754_finite s m e)) Utility.minus_0_00001 = true <->
  SF_lt_Q (S754_finite s m e) (-1 # 100000).
Proof.
  intros Hv.
  destruct (of_float_finite s m e Hv) as (k & Hk & ->).
  unfold F64.ltb. rewrite ltb_minus_0_00001.
  rewrite iter_xO_mul.
  pose proof (digits2_pos_bounds m) as Hm.
  unfold F32.valid, valid_binary, bounded, canonical_mantissa, fexp, emin,
    F32.prec, F32.emax in Hv.
  apply andb_true_iff in Hv as [H1 H2].
  apply Z.eqb_eq in H1. apply Z.leb_le in H2.
  set (d := Zpos (digits2_pos m)) in *.
  assert (Hd : 1 <= d <= 24) by (unfold d; lia).
  unfold SF_lt_Q, SF2Q.
  destruct s.
  2:{ split; [intros [? _]; discriminate|].
      destruct e; unfold Qlt; cbn [Qnum Qden cond_Zopp]; lia. }
  change (cond_Zopp true (Z.pos m)) with (- Zpos m).
  assert (Hp : 2 ^ (d - 1) * 2 = 2 ^ d).
  { replace d with (Z.succ (d - 1)) at 2 by lia. rewrite Z.pow_succ_r by lia. lia. }
  destruct e as [|p|p].
  - split; [intros _; unfold Qlt; cbn [Qnum Qden]; lia | intros _; split; [reflexivity | lia]].
  - split; [intros _ | intros _; split; [reflexivity | lia]].
    unfold Qlt; cbn [Qnum Qden]. pose proof (Z.pow_pos_nonneg 2 (Zpos p)). lia.
  - unfold Qlt. cbn [Qnum Qden].
    rewrite Pos2Z.inj_pow.
    set (A := 2 ^ Zpos p). set (K := 2 ^ Zpos k).
    assert (HK : 0 < K) by (apply Z.pow_pos_nonneg; lia).
    split.
    + intros [_ [H | [H1' H3]]].
      * assert (Zpos p <= (d - 1) + 16) by lia.
        assert (HA : A <= 2 ^ ((d - 1) + 16)) by (apply Z.pow_le_mono_r; lia).
        rewrite Z.pow_add_r in HA by lia.
        change (2 ^ 16) with 65536 in HA. lia.
      * assert (Hs : A * K = 2 ^ 69).
        { unfold A, K. rewrite <- Z.pow_add_r by lia. f_equal. lia. }
        change (2 ^ 69) with 590295810358705651712 in Hs.
        assert (A * K < (Zpos m * 100000) * K) by lia.
        apply Z.mul_lt_mono_pos_r in H; lia.
    + intros H. split; [reflexivity|].
      destruct (Z_lt_le_dec (-69) (Zneg p - Zpos k)) as [Hlt|Hge]; [left; exact Hlt | right].
      assert (Hpe : d + 16 <= Zpos p) by lia.
      destruct (Z.eq_dec (Zpos p) (d + 16)) as [Heq|Hne].
      * split; [lia|].
        assert (Hs : A * K = 2 ^ 69).
        { unfold A, K. rewrite <- Z.pow_add_r by lia. f_equal. lia. }
        change (2 ^ 69) with 590295810358705651712 in Hs.
        assert (Hk29 : K = 2 ^ 29 * 2 ^ (Zpos k - 29)).
        { unfold K. rewrite <- Z.pow_add_r by lia. f_equal. lia. }
        change (2 ^ 29) with 536870912 in Hk29.
        assert (HAK : A * K < (Zpos m * 100000) * K)
          by (apply Z.mul_lt_mono_pos_r; lia).
        rewrite Hs in HAK. rewrite Hk29 in HAK |- *.
        set (K' := 2 ^ (Zpos k - 29)) in *.
        lia.
      * exfalso.
        assert (HA : 2 ^ (d + 17) <= A) by (apply Z.pow_le_mono_r; lia).
        rewrite Z.pow_add_r in HA by lia.
        change (2 ^ 17) with 131072 in HA. lia.
Qed.


(** Rounding keeps the sign: the result is a zero, a finite number or an
  infinity of the sign asked for, or NaN. *)
Lemma binary_round_aux_sign (prec emax : Z) (s : bool) (m e : Z) (l : location) :
  match binary_round_aux prec emax s m e l with
  | S754_zero s' | S754_infinity s' | S754_finite s' _ _ => s' = s
  | S754_nan => True
  end.
Proof.
  unfold binary_round_aux.
  destruct (shr_fexp prec emax m e l) as [mrs' e'].
  destruct (shr_fexp prec emax _ e' loc_Exact) as [mrs'' e''].
  destruct (shr_m mrs''); [reflexivity | | exact I].
  destruct (e'' <=? emax - prec); reflexivity.
Qed.

(** The square root of a float is never below zero. *)
Lemma sqrt_not_negative (a : float) :
  match F32.sqrt a with
  | S754_infinity s | S754_finite s _ _ => s = false
  | _ => True
  end.
Proof.
  destruct a as [s|[|]| |[|] m e]; cbn; try exact I; try reflexivity.
  unfold F32.sqrt, SFsqrt.
  destruct (SFsqrt_core_binary F32.prec F32.emax (Z.pos m) e) as [[mz ez] lz].
  pose proof (binary_round_aux_sign F32.prec F32.emax false mz ez lz) as H.
  destruct (binary_round_aux F32.prec F32.emax false mz ez lz); auto.
Qed.

(** Zero divided by anything is a zero or NaN. *)
Lemma div_zero_l (s : bool) (b : float) :
  match F32.div (S754_zero s) b with
  | S754_zero _ | S754_nan => True
  | _ => False
  end.
Proof. destruct b; exact I. Qed.

Lemma ltb_zero_false_leb (a : float) :
  F32.ltb a F32.zero = false -> F32.is_nan a = false ->
  F32.leb F32.zero a = true.
Proof. destruct a as [s|[|]| |[|] m e]; cbn; congruence. Qed.


(* ===================================================================== *)
(** * Utility.h: isDownwardDir and fixDownwardDir *)

(** Claim C10.  [isDownwardDir] answers true exactly when the z-component is
  strictly below -0.00001 (the exact decimal; NaN is below nothing); hence
  a finite z-component of at least -0.00001, such as a slightly negative
  one, is not classified as facing the back of the surface. *)
Theorem isDownwardDir_threshold (dir : Vec3) :
  F32.valid (Vec3.z dir) ->
  (Utility.isDownwardDir dir = true <-> SF_lt_Q (Vec3.z dir) (-1 # 100000))
  /\ (F32.is_finite (Vec3.z dir) = true ->
      (-1 # 100000 <= SF2Q (Vec3.z dir))%Q ->
      Utility.isDownwardDir dir = false).
Proof.
  intros Hv.
  assert (Hiff : Utility.isDownwardDir dir = true
                 <-> SF_lt_Q (Vec3.z dir) (-1 # 100000)).
  { unfold Utility.isDownwardDir.
    destruct (Vec3.z dir) as [s|s| |s m e] eqn:Hz.
    - cbn. split; [discriminate | intros H; unfold Qlt in H; cbn in H; lia].
    - cbn. destruct s; split; congruence.
    - cbn. split; [discriminate | tauto].
    - apply of_float_ltb_minus_0_00001. exact Hv. }
  split; [exact Hiff|].
  intros Hfin Hge.
  apply not_true_is_false. intros Hd. apply Hiff in Hd.
  destruct (Vec3.z dir) as [s|s| |s m e]; try discriminate;
    cbn [SF_lt_Q] in Hd; exact (Qle_not_lt _ _ Hge Hd).
Qed.

Lemma isDownwardDir_threshold_witness :
  Utility.isDownwardDir
    (Vec3.make F32.zero F32.zero (S754_finite true 10995116 (-41))) = false.
Proof.
  apply (isDownwardDir_threshold
           (Vec3.make F32.zero F32.zero (S754_finite true 10995116 (-41)))).
  - reflexivity.
  - reflexivity.
  - unfold Qle. cbn. lia.
Defined.

(** Normalising a vector whose z-component is zero leaves it zero (or NaN). *)
Lemma normalized_z_zero (a b : float) :
  match Vec3.z (Vec3.normalized (Vec3.make a b F32.zero)) with
  | S754_zero _ | S754_nan => True
  | _ => False
  end.
Proof.
  unfold Vec3.normalized.
  destruct (F32.ltb F32.zero _); cbn [Vec3.z Vec3.div_scalar]; [|exact I].
  apply div_zero_l.
Qed.



(* ===================================================================== *)
(** * SampleSet2D.cpp: the constructor and the two resize operations *)

Lemma Eigen_resize_length (uninit : nat -> float) (a : Arrayf) (n : Z) :
  length (Eigen.resize uninit a n) = Z.to_nat n.
Proof.
  unfold Eigen.resize.
  destruct (Z.eqb_spec (Z.of_nat (length a)) n) as [<-|_].
  - now rewrite Nat2Z.id.
  - now rewrite length_map, length_seq.
Qed.

Lemma Vector_resize_length {A : Type} (dflt : A) (v : list A) (n : nat) :
  length (Vector.resize dflt v n) = n.
Proof.
  unfold Vector.resize.
  rewrite length_app, length_take, length_replicate. lia.
Qed.

Lemma Vector_resize_lookup_lt {A : Type} (dflt : A) (v : list A) (n i : nat) :
  (i < n)%nat -> (i < length v)%nat -> Vector.resize dflt v n !! i = v !! i.
Proof.
  intros Hn Hv. unfold Vector.resize.
  rewrite lookup_app_l by (rewrite length_take; lia).
  now apply lookup_take_lt.
Qed.

Lemma Vector_resize_lookup_ge {A : Type} (dflt : A) (v : list A) (n i : nat) :
  (length v <= i < n)%nat -> Vector.resize dflt v n !! i = Some dflt.
Proof.
  intros H. unfold Vector.resize.
  rewrite lookup_app_r by (rewrite length_take; lia).
  apply lookup_replicate_2. rewrite length_take. lia.
Qed.

Section SampleSet2DFacts.

Variable uninit : nat -> float.
Variable LinSpaced : Z -> float -> float -> Arrayf.
Variable isEqualInterval : Arrayf -> bool.
Variables MAX_ANGLE0 MAX_ANGLE1 : float.

(** The loop over the cells: when the cells [i, i + count) exist, each of
  them gets a fresh spectrum of [numWavelengths] coefficients and the
  others are not touched. *)
Lemma assign_spectra_Returns (count i : nat) (numWavelengths : Z)
    (spectra : list Spectrum) :
  (i + count <= length spectra)%nat ->
  exists spectra',
    SampleSet2D.assign_spectra uninit count i numWavelengths spectra
    = Returns spectra'
    /\ length spectra' = length spectra
    /\ (forall j, (i <= j < i + count)%nat ->
          spectra' !! j = Some (Eigen.resize uninit [] numWavelengths))
    /\ (forall j, ~ (i <= j < i + count)%nat -> spectra' !! j = spectra !! j).
Proof.
  revert i spectra.
  induction count as [|count IH]; intros i spectra Hlen.
  - exists spectra. cbn. split; [reflexivity|]. split; [reflexivity|].
    split; [intros j Hj; lia | auto].
  - cbn [SampleSet2D.assign_spectra]. unfold Vector.at_assign.
    destruct (decide (i < length spectra)%nat) as [Hi|Hi]; [|lia].
    cbn.
    destruct (IH (S i) (<[i := Eigen.resize uninit [] numWavelengths]> spectra))
      as (spectra' & Hrun & Hl & Hin & Hout).
    { rewrite length_insert. lia. }
    exists spectra'. split; [exact Hrun|].
    rewrite length_insert in Hl.
    split; [exact Hl|]. split.
    + intros j Hj.
      destruct (decide (j = i)) as [->|Hne].
      * rewrite Hout by lia. now apply list_lookup_insert_eq.
      * apply Hin. lia.
    + intros j Hj. rewrite Hout by lia.
      apply list_lookup_insert_ne. lia.
Qed.

(** The loop throws [std::out_of_range] as soon as a cell is missing. *)
Lemma assign_spectra_Aborts (count i : nat) (numWavelengths : Z)
    (spectra : list Spectrum) :
  (length spectra < i + count)%nat -> (i <= length spectra)%nat ->
  SampleSet2D.assign_spectra uninit count i numWavelengths spectra
  = Aborts out_of_range.
Proof.
  revert i spectra.
  induction count as [|count IH]; intros i spectra Hlen Hi; [lia|].
  cbn [SampleSet2D.assign_spectra]. unfold Vector.at_assign.
  destruct (decide (i < length spectra)%nat) as [Hlt|Hge]; [|reflexivity].
  cbn. apply IH; rewrite length_insert; lia.
Qed.

Lemma assign_spectra_all (numWavelengths : Z) (spectra : list Spectrum) :
  exists spectra',
    SampleSet2D.assign_spectra uninit (length spectra) 0 numWavelengths spectra
    = Returns spectra'
    /\ length spectra' = length spectra
    /\ Forall (fun sp : Spectrum => length sp = Z.to_nat numWavelengths)
              spectra'.
Proof.
  destruct (assign_spectra_Returns (length spectra) 0 numWavelengths spectra)
    as (spectra' & Hrun & Hl & Hin & _); [lia|].
  exists spectra'. split; [exact Hrun|]. split; [exact Hl|].
  apply Forall_lookup. intros j sp Hj.
  assert (j < length spectra')%nat by (eapply lookup_lt_Some; eauto).
  rewrite Hin in Hj by lia. injection Hj as <-.
  apply Eigen_resize_length.
Qed.

(** Claim C3.  On a grid that has one cell for each pair of angles,
  [resizeWavelengths(n)] with [n > 0] returns; afterwards every cell's
  spectrum has [n] coefficients, the wavelength array has length [n], and
  the theta and phi axes (and the number of cells) are as before. *)
Theorem resizeWavelengths_spec (this : SampleSet2D.t) (numWavelengths : Z) :
  SampleSet2D.wf this ->
  0 < numWavelengths ->
  exists this',
    SampleSet2D.resizeWavelengths uninit this numWavelengths = Returns this'
    /\ Forall (fun sp : Spectrum => Z.of_nat (length sp) = numWavelengths)
              (SampleSet2D.spectra_ this')
    /\ Z.of_nat (length (SampleSet2D.wavelengths_ this')) = numWavelengths
    /\ SampleSet2D.thetaAngles_ this' = SampleSet2D.thetaAngles_ this
    /\ SampleSet2D.phiAngles_ this' = SampleSet2D.phiAngles_ this
    /\ length (SampleSet2D.spectra_ this')
       = length (SampleSet2D.spectra_ this).
Proof.
  intros Hwf Hn. unfold SampleSet2D.resizeWavelengths.
  destruct (Z.ltb_spec 0 numWavelengths) as [_|?]; [|lia]. cbn.
  rewrite <- Hwf.
  destruct (assign_spectra_all numWavelengths (SampleSet2D.spectra_ this))
    as (spectra' & -> & Hl & Hall).
  cbn. eexists. split; [reflexivity|]. cbn.
  repeat split; try assumption.
  - eapply Forall_impl; [exact Hall|]. cbn. intros sp Hsp. lia.
  - rewrite Eigen_resize_length. lia.
Qed.

(** Claim C6.  The constructor, called with positive numbers of angles whose
  product is an [int] and with a wavelength count that is positive once the
  color model has constrained it, returns a grid whose wavelength array has
  1 entry for the monochromatic model, 3 for every model that is neither
  monochromatic nor spectral, and the requested number for the spectral
  model; every cell's spectrum has that length too. *)
Theorem ctor_wavelengths (numTheta numPhi : Z)
    (colorModel : SampleSet2D.ColorModel) (numWavelengths : Z)
    (equalIntervalAngles : bool) :
  0 < numTheta -> 0 < numPhi -> numTheta * numPhi <= INT_MAX ->
  (colorModel = SampleSet2D.SPECTRAL_MODEL -> 0 < numWavelengths) ->
  exists this,
    SampleSet2D.ctor uninit LinSpaced isEqualInterval MAX_ANGLE0 MAX_ANGLE1
      numTheta numPhi colorModel numWavelengths equalIntervalAngles
    = Returns this
    /\ (colorModel = SampleSet2D.MONOCHROMATIC_MODEL ->
        length (SampleSet2D.wavelengths_ this) = 1%nat)
    /\ (colorModel <> SampleSet2D.MONOCHROMATIC_MODEL ->
        colorModel <> SampleSet2D.SPECTRAL_MODEL ->
        length (SampleSet2D.wavelengths_ this) = 3%nat)
    /\ (colorModel = SampleSet2D.SPECTRAL_MODEL ->
        Z.of_nat (length (SampleSet2D.wavelengths_ this)) = numWavelengths)
    /\ Forall (fun sp : Spectrum =>
                 length sp = length (SampleSet2D.wavelengths_ this))
              (SampleSet2D.spectra_ this)
    /\ Z.of_nat (length (SampleSet2D.spectra_ this)) = numTheta * numPhi
    /\ SampleSet2D.colorModel_ this = colorModel.
Proof.
  intros HT HP Hmul Hspec. unfold SampleSet2D.ctor.
  assert (Hpos : 0 < numTheta * numPhi) by (apply Z.mul_pos_pos; assumption).
  destruct (Z.ltb_spec 0 numTheta) as [_|?]; [|lia].
  destruct (Z.ltb_spec 0 numPhi) as [_|?]; [|lia]. cbn.
  unfold int_mul, INT_MIN, INT_MAX in *.
  destruct (Z.leb_spec (- 2 ^ 31) (numTheta * numPhi)) as [_|?]; [|lia].
  destruct (Z.leb_spec (numTheta * numPhi) (2 ^ 31 - 1)) as [_|?]; [|lia]. cbn.
  set (n := if decide (colorModel = SampleSet2D.MONOCHROMATIC_MODEL) then 1
            else if decide (colorModel <> SampleSet2D.SPECTRAL_MODEL) then 3
            else numWavelengths).
  assert (Hn : 0 < n).
  { unfold n. repeat destruct (decide _); try lia.
    apply Hspec.
    destruct (decide (colorModel = SampleSet2D.SPECTRAL_MODEL)); tauto. }
  destruct (Z.ltb_spec 0 n) as [_|?]; [|lia]. cbn.
  set (cells := Vector.resize [] [] (Z.to_nat (numTheta * numPhi))).
  assert (Hcells : length cells = Z.to_nat (numTheta * numPhi))
    by apply Vector_resize_length.
  assert (Hsp : forall b : bool,
    SampleSet2D.spectra_
      (if b then
         SampleSet2D.updateAngleAttributes isEqualInterval
           (SampleSet2D.set_angles (LinSpaced numTheta F32.zero MAX_ANGLE0)
              (LinSpaced numPhi F32.zero MAX_ANGLE1)
              (SampleSet2D.make cells [] [] false false colorModel []
                 SampleSet2D.UNKNOWN_SOURCE))
       else
         SampleSet2D.set_angles (Eigen.resize uninit [] numTheta)
           (Eigen.resize uninit [] numPhi)
           (SampleSet2D.make cells [] [] false false colorModel []
              SampleSet2D.UNKNOWN_SOURCE)) = cells)
    by (intros []; reflexivity).
  rewrite Hsp. rewrite <- Hcells.
  destruct (assign_spectra_all n cells) as (spectra' & Hrun & Hl & Hall).
  unfold Spectrum in *. rewrite Hrun. cbn.
  eexists. split; [reflexivity|].
  assert (Hn1 : colorModel = SampleSet2D.MONOCHROMATIC_MODEL ->
                Z.to_nat n = 1%nat).
  { intros E. unfold n. rewrite decide_True by exact E. reflexivity. }
  assert (Hn3 : colorModel <> SampleSet2D.MONOCHROMATIC_MODEL ->
                colorModel <> SampleSet2D.SPECTRAL_MODEL ->
                Z.to_nat n = 3%nat).
  { intros E1 E2. unfold n. rewrite decide_False, decide_True by assumption.
    reflexivity. }
  assert (HnN : colorModel = SampleSet2D.SPECTRAL_MODEL ->
                Z.of_nat (Z.to_nat n) = numWavelengths).
  { intros E. pose proof (Hspec E). unfold n.
    rewrite decide_False, decide_False by (rewrite E; congruence). lia. }
  assert (HZero : length (Eigen.Zero n) = Z.to_nat n)
    by apply length_replicate.
  clearbody n.
  destruct equalIntervalAngles,
    (bool_decide (colorModel = SampleSet2D.MONOCHROMATIC_MODEL)),
    (bool_decide (colorModel <> SampleSet2D.SPECTRAL_MODEL));
    cbn [orb SampleSet2D.set_wavelengths SampleSet2D.set_spectra
         SampleSet2D.set_angles SampleSet2D.updateAngleAttributes
         SampleSet2D.set_equalInterval SampleSet2D.wavelengths_
         SampleSet2D.spectra_ SampleSet2D.colorModel_];
    rewrite ?HZero, ?Eigen_resize_length;
    (split; [exact Hn1|]); (split; [exact Hn3|]); (split; [exact HnN|]);
    (split; [exact Hall|]); (split; [lia | reflexivity]).
Qed.

(** Claim C7, amended.  [resizeAngles(numTheta, numPhi)], with positive
  arguments whose product is an [int], returns a grid with
  [numTheta * numPhi] cells, a theta axis of length [numTheta] and a phi
  axis of length [numPhi]; the cells below both the old and the new count
  keep their spectrum and the added cells have an empty one. *)
Theorem resizeAngles_spec (this : SampleSet2D.t) (numTheta numPhi : Z) :
  0 < numTheta -> 0 < numPhi -> numTheta * numPhi <= INT_MAX ->
  exists this',
    SampleSet2D.resizeAngles uninit this numTheta numPhi = Returns this'
    /\ Z.of_nat (length (SampleSet2D.spectra_ this')) = numTheta * numPhi
    /\ Z.of_nat (length (SampleSet2D.thetaAngles_ this')) = numTheta
    /\ Z.of_nat (length (SampleSet2D.phiAngles_ this')) = numPhi
    /\ (forall i : nat,
          (i < length (SampleSet2D.spectra_ this))%nat ->
          (i < length (SampleSet2D.spectra_ this'))%nat ->
          SampleSet2D.spectra_ this' !! i = SampleSet2D.spectra_ this !! i)
    /\ (forall i : nat,
          (length (SampleSet2D.spectra_ this) <= i
           < length (SampleSet2D.spectra_ this'))%nat ->
          SampleSet2D.spectra_ this' !! i = Some []).
Proof.
  intros HT HP Hmul. unfold SampleSet2D.resizeAngles.
  assert (Hpos : 0 < numTheta * numPhi) by (apply Z.mul_pos_pos; assumption).
  destruct (Z.ltb_spec 0 numTheta) as [_|?]; [|lia].
  destruct (Z.ltb_spec 0 numPhi) as [_|?]; [|lia]. cbn.
  unfold int_mul, INT_MIN, INT_MAX in *.
  destruct (Z.leb_spec (- 2 ^ 31) (numTheta * numPhi)) as [_|?]; [|lia].
  destruct (Z.leb_spec (numTheta * numPhi) (2 ^ 31 - 1)) as [_|?]; [|lia]. cbn.
  eexists. split; [reflexivity|]. cbn.
  rewrite Vector_resize_length, !Eigen_resize_length.
  repeat split; try lia.
  - intros i Hi Hi'. now apply Vector_resize_lookup_lt.
  - intros i Hi. now apply Vector_resize_lookup_ge.
Qed.

End SampleSet2DFacts.

(* ===================================================================== *)
(** * Sampler.h: the five queries *)

Section SamplerFacts.

Context {SampleSet : Type}.
Variable isIsotropic : SampleSet -> bool.
Variable isIsotropic2D : SampleSet2D.t -> bool.
Variable SphericalCoordinateSystem_fromXyz : Vec3 -> float * float.
Variable acos : float -> float.

(** Claim C1.  The four queries on a SampleSet (by coordinate system and by
  Brdf, spectrum and value) take the isotropy branch in the same way: after
  the assertion each one follows [isotropy_rule] on the flag of the grid,
  with the conversion of its coordinate system (or Brdf) and the
  interpolation of its interpolator. *)
Theorem Sampler_isotropy_branch (CoordSys : CoordSysT)
    (Interpolator : InterpolatorT SampleSet) (samples : SampleSet)
    (brdf : Brdf SampleSet) (inDir outDir : Vec3) (wavelengthIndex : Z) :
  Sampler.getSpectrum isIsotropic CoordSys Interpolator samples inDir outDir
  = (assert (Sampler.z_ge_0 inDir);;
     Returns (isotropy_rule (isIsotropic samples)
                (fromXyz_iso CoordSys inDir outDir)
                (fromXyz CoordSys inDir outDir)
                (Interpolator_getSpectrum_iso Interpolator samples)
                (Interpolator_getSpectrum Interpolator samples)))
  /\ Sampler.getValue isIsotropic CoordSys Interpolator samples inDir outDir
       wavelengthIndex
     = (assert (Sampler.z_ge_0 inDir);;
        Returns (isotropy_rule (isIsotropic samples)
                   (fromXyz_iso CoordSys inDir outDir)
                   (fromXyz CoordSys inDir outDir)
                   (fun a0 a2 a3 =>
                      Interpolator_getValue_iso Interpolator samples
                        a0 a2 a3 wavelengthIndex)
                   (fun a0 a1 a2 a3 =>
                      Interpolator_getValue Interpolator samples
                        a0 a1 a2 a3 wavelengthIndex)))
  /\ Sampler.getSpectrum_Brdf isIsotropic Interpolator brdf inDir outDir
     = (assert (Sampler.z_ge_0 inDir);;
        Returns (isotropy_rule (isIsotropic (getSampleSet brdf))
                   (Brdf_fromXyz_iso brdf inDir outDir)
                   (Brdf_fromXyz brdf inDir outDir)
                   (Interpolator_getSpectrum_iso Interpolator
                      (getSampleSet brdf))
                   (Interpolator_getSpectrum Interpolator
                      (getSampleSet brdf))))
  /\ Sampler.getValue_Brdf isIsotropic Interpolator brdf inDir outDir
       wavelengthIndex
     = (assert (Sampler.z_ge_0 inDir);;
        Returns (isotropy_rule (isIsotropic (getSampleSet brdf))
                   (Brdf_fromXyz_iso brdf inDir outDir)
                   (Brdf_fromXyz brdf inDir outDir)
                   (fun a0 a2 a3 =>
                      Interpolator_getValue_iso Interpolator
                        (getSampleSet brdf) a0 a2 a3 wavelengthIndex)
                   (fun a0 a1 a2 a3 =>
                      Interpolator_getValue Interpolator
                        (getSampleSet brdf) a0 a1 a2 a3 wavelengthIndex))).
Proof.
  unfold Sampler.getSpectrum, Sampler.getValue, Sampler.getSpectrum_Brdf,
    Sampler.getValue_Brdf, isotropy_rule.
  repeat split.
  all: destruct (assert (Sampler.z_ge_0 inDir)) as [[]|f]; cbn; [|reflexivity].
  - destruct (isIsotropic samples).
    + destruct (fromXyz_iso CoordSys inDir outDir) as [[? ?] ?]; reflexivity.
    + destruct (fromXyz CoordSys inDir outDir) as [[[? ?] ?] ?]; reflexivity.
  - destruct (isIsotropic samples).
    + destruct (fromXyz_iso CoordSys inDir outDir) as [[? ?] ?]; reflexivity.
    + destruct (fromXyz CoordSys inDir outDir) as [[[? ?] ?] ?]; reflexivity.
  - destruct (isIsotropic (getSampleSet brdf)).
    + destruct (Brdf_fromXyz_iso brdf inDir outDir) as [[? ?] ?]; reflexivity.
    + destruct (Brdf_fromXyz brdf inDir outDir) as [[[? ?] ?] ?]; reflexivity.
  - destruct (isIsotropic (getSampleSet brdf)).
    + destruct (Brdf_fromXyz_iso brdf inDir outDir) as [[? ?] ?]; reflexivity.
    + destruct (Brdf_fromXyz brdf inDir outDir) as [[[? ?] ?] ?]; reflexivity.
Qed.

(** Claim C4, as the code has it.  A direction whose z-component fails
  [z >= 0.0] stops the four queries on a SampleSet with a failed assertion,
  while the query on a SampleSet2D has no assertion and returns a
  spectrum. *)
Theorem Sampler_getSpectrum_2D_unchecked (CoordSys : CoordSysT)
    (Interpolator : InterpolatorT SampleSet) (samples : SampleSet)
    (brdf : Brdf SampleSet) (ss2 : SampleSet2D.t) (inDir outDir : Vec3)
    (wavelengthIndex : Z) :
  Sampler.z_ge_0 inDir = false ->
  Sampler.getSpectrum isIsotropic CoordSys Interpolator samples inDir outDir
  = Aborts assertion_failed
  /\ Sampler.getValue isIsotropic CoordSys Interpolator samples inDir outDir
       wavelengthIndex = Aborts assertion_failed
  /\ Sampler.getSpectrum_Brdf isIsotropic Interpolator brdf inDir outDir
     = Aborts assertion_failed
  /\ Sampler.getValue_Brdf isIsotropic Interpolator brdf inDir outDir
       wavelengthIndex = Aborts assertion_failed
  /\ exists spectrum,
       Sampler.getSpectrum_2D isIsotropic2D SphericalCoordinateSystem_fromXyz
         acos Interpolator ss2 inDir = Returns spectrum.
Proof.
  intros Hz.
  unfold Sampler.getSpectrum, Sampler.getValue, Sampler.getSpectrum_Brdf,
    Sampler.getValue_Brdf, Sampler.getSpectrum_2D.
  rewrite Hz. cbn.
  repeat split.
  destruct (isIsotropic2D ss2); [eauto|].
  destruct (SphericalCoordinateSystem_fromXyz inDir); eauto.
Qed.

(** Claim C5.  The query on a SampleSet2D (also through
  [SampleSet2D::getSpectrum], with the LinearInterpolator) uses, for an
  isotropic grid, the polar angle [acos(inDir.z)] alone, so that directions
  with the same z-component get the same spectrum; for an anisotropic grid
  it uses the two angles of the spherical conversion. *)
Theorem Sampler_getSpectrum_2D_angles (Interpolator : InterpolatorT SampleSet)
    (ss2 : SampleSet2D.t) (inDir : Vec3) :
  (isIsotropic2D ss2 = true ->
     Sampler.getSpectrum_2D isIsotropic2D SphericalCoordinateSystem_fromXyz
       acos Interpolator ss2 inDir
     = Returns (Interpolator_getSpectrum1 Interpolator ss2
                  (acos (Vec3.z inDir)))
     /\ forall inDir' : Vec3,
          Vec3.z inDir' = Vec3.z inDir ->
          Sampler.getSpectrum_2D isIsotropic2D
            SphericalCoordinateSystem_fromXyz acos Interpolator ss2 inDir'
          = Sampler.getSpectrum_2D isIsotropic2D
              SphericalCoordinateSystem_fromXyz acos Interpolator ss2 inDir)
  /\ (isIsotropic2D ss2 = false ->
        Sampler.getSpectrum_2D isIsotropic2D SphericalCoordinateSystem_fromXyz
          acos Interpolator ss2 inDir
        = Returns (Interpolator_getSpectrum2 Interpolator ss2
                     (SphericalCoordinateSystem_fromXyz inDir).1
                     (SphericalCoordinateSystem_fromXyz inDir).2))
  /\ Sampler.SampleSet2D_getSpectrum isIsotropic2D
       SphericalCoordinateSystem_fromXyz acos Interpolator ss2 inDir
     = Sampler.getSpectrum_2D isIsotropic2D SphericalCoordinateSystem_fromXyz
         acos Interpolator ss2 inDir.
Proof.
  unfold Sampler.SampleSet2D_getSpectrum, Sampler.getSpectrum_2D.
  split; [|split].
  - intros ->. split; [reflexivity|]. intros inDir' ->. reflexivity.
  - intros ->. destruct (SphericalCoordinateSystem_fromXyz inDir); reflexivity.
  - destruct (isIsotropic2D ss2); [reflexivity|].
    destruct (SphericalCoordinateSystem_fromXyz inDir); reflexivity.
Qed.

End SamplerFacts.

(* ===================================================================== *)
(** * WardAnisotropic.h: the value at grazing directions *)

(** A finite quotient has a finite numerator and a divisor that is not
  zero. *)
Lemma div_finite_inv (a b : float) :
  F32.is_finite (F32.div a b) = true ->
  F32.is_finite a = true /\ F32.eqb b F32.zero = false.
Proof.
  destruct a as [?|?| |? ? ?], b as [?|[|]| |[|] ? ?]; cbn; intros H;
    try discriminate H; split; reflexivity.
Qed.

(** A finite product has finite factors. *)
Lemma mul_finite_inv (a b : float) :
  F32.is_finite (F32.mul a b) = true ->
  F32.is_finite a = true /\ F32.is_finite b = true.
Proof.
  destruct a as [?|?| |? ? ?], b as [?|?| |? ? ?]; cbn; intros H;
    try discriminate H; split; reflexivity.
Qed.

(** [1.0f / sqrt(p)] is finite for a positive [p] only. *)
Lemma one_div_sqrt_finite_inv (p : float) :
  F32.is_finite (F32.div F32.one (F32.sqrt p)) = true ->
  F32.ltb F32.zero p = true.
Proof.
  destruct p as [s|[|]| |[|] m e]; cbn; try discriminate; reflexivity.
Qed.

Section WardAnisotropicFacts.

Variable exp : float -> float.
Variable PI_F : float.

Lemma getResult_finite_inv
    (inDir outDir normalDir tangentDir binormalDir : Vec3)
    (roughnessX roughnessY : float) :
  F32.is_finite
    (WardAnisotropic.getResult exp PI_F inDir outDir normalDir tangentDir
       binormalDir roughnessX roughnessY) = true ->
  F32.ltb F32.zero
    (F32.mul (Vec3.dot inDir normalDir) (Vec3.dot outDir normalDir)) = true
  /\ F32.eqb
       (F32.mul (F32.mul (F32.mul (F32.of_Z 4) PI_F) roughnessX) roughnessY)
       F32.zero = false.
Proof.
  unfold WardAnisotropic.getResult. cbv zeta. intros H.
  apply div_finite_inv in H as [H Hden].
  apply mul_finite_inv in H as [H _].
  apply one_div_sqrt_finite_inv in H. auto.
Qed.

(** Claim C8, amended.  [getResult] puts no floor under its denominators: the
  value it returns is finite only if the product [dotLN * dotVN] is
  strictly positive and [4 * PI_F * roughnessX * roughnessY] is not zero.
  When the product is zero (a direction at grazing angle), negative or
  NaN, the value is infinite or NaN. *)
Theorem getResult_finite_only_if
    (inDir outDir normalDir tangentDir binormalDir : Vec3)
    (roughnessX roughnessY : float) :
  (F32.is_finite
     (WardAnisotropic.getResult exp PI_F inDir outDir normalDir tangentDir
        binormalDir roughnessX roughnessY) = true ->
   F32.ltb F32.zero
     (F32.mul (Vec3.dot inDir normalDir) (Vec3.dot outDir normalDir)) = true
   /\ F32.eqb
        (F32.mul (F32.mul (F32.mul (F32.of_Z 4) PI_F) roughnessX) roughnessY)
        F32.zero = false)
  /\ (F32.ltb F32.zero
        (F32.mul (Vec3.dot inDir normalDir) (Vec3.dot outDir normalDir))
      = false ->
      F32.is_finite
        (WardAnisotropic.getResult exp PI_F inDir outDir normalDir tangentDir
           binormalDir roughnessX roughnessY) = false).
Proof.
  split; [apply getResult_finite_inv|].
  intros Hp. apply not_true_is_false. intros Hf.
  apply getResult_finite_inv in Hf as [Hf _]. congruence.
Qed.

End WardAnisotropicFacts.

Lemma getResult_finite_only_if_witness :
  let n := Vec3.make F32.zero F32.zero F32.one in
  F32.ltb F32.zero (F32.mul (Vec3.dot n n) (Vec3.dot n n)) = true
  /\ F32.eqb
       (F32.mul (F32.mul (F32.mul (F32.of_Z 4)
                            (S754_finite false 13176795 (-22))) F32.one)
                F32.one)
       F32.zero = false.
Proof.
  apply (getResult_finite_only_if (fun _ => F32.one)
           (S754_finite false 13176795 (-22))
           (Vec3.make F32.zero F32.zero F32.one)
           (Vec3.make F32.zero F32.zero F32.one)
           (Vec3.make F32.zero F32.zero F32.one)
           (Vec3.make F32.one F32.zero F32.zero)
           (Vec3.make F32.zero (F32.opp F32.one) F32.zero)
           F32.one F32.one).
  vm_compute. reflexivity.
Defined.

(** Claim C8, as stated, fails: the incoming direction (1, 0, 0) and the
  outgoing direction (0, 0, 1) are unit vectors with [z >= 0] and the
  roughness 1 is positive, yet [dotLN] is 0, [1.0f / sqrt(0)] is infinite,
  and the value returned is not finite, whatever [exp] and [PI_F] are. *)
Lemma getResult_grazing_not_finite :
  let inDir := Vec3.make F32.one F32.zero F32.zero in
  let outDir := Vec3.make F32.zero F32.zero F32.one in
  let N := Vec3.make F32.zero F32.zero F32.one in
  let T := Vec3.make F32.one F32.zero F32.zero in
  let B := Vec3.make F32.zero (F32.opp F32.one) F32.zero in
  F32.eqb (Vec3.squaredNorm inDir) F32.one = true
  /\ F32.eqb (Vec3.squaredNorm outDir) F32.one = true
  /\ F32.leb F32.zero (Vec3.z inDir) = true
  /\ F32.leb F32.zero (Vec3.z outDir) = true
  /\ F32.ltb F32.zero F32.one = true
  /\ forall (exp : float -> float) (PI_F : float),
       F32.is_finite
         (WardAnisotropic.getResult exp PI_F inDir outDir N T B
            F32.one F32.one) = false
       /\ F32.is_finite
            (WardAnisotropic.getValue exp PI_F F32.one F32.one inDir outDir)
          = false.
Proof.
  cbv zeta. repeat split; try (vm_compute; reflexivity).
  - apply not_true_is_false. intros Hf.
    apply getResult_finite_inv in Hf as [Hf _].
    vm_compute in Hf. discriminate.
  - apply not_true_is_false. intros Hf. unfold WardAnisotropic.getValue in Hf.
    apply getResult_finite_inv in Hf as [Hf _].
    vm_compute in Hf. discriminate.
Qed.

(* ===================================================================== *)
(** * SampleSet2D.cpp and Sampler.h: instances *)

(** Claim C7, as stated, fails: a grid of one cell holding the spectrum
  [1.0] keeps that spectrum in its first cell when it is resized to two
  cells. *)
Lemma resizeAngles_keeps_spectra :
  let this :=
    SampleSet2D.make [[F32.one]] [F32.zero] [F32.zero] false false
      SampleSet2D.MONOCHROMATIC_MODEL [F32.zero] SampleSet2D.UNKNOWN_SOURCE in
  SampleSet2D.wf this
  /\ SampleSet2D.spectra_ this !! 0%nat = Some [F32.one]
  /\ forall uninit : nat -> float,
       exists this',
         SampleSet2D.resizeAngles uninit this 2 1 = Returns this'
         /\ SampleSet2D.spectra_ this' !! 0%nat = Some [F32.one].
Proof.
  cbv zeta. split; [reflexivity|]. split; [reflexivity|].
  intros uninit. eexists. split; reflexivity.
Qed.

Lemma resizeAngles_spec_witness :
  exists this',
    SampleSet2D.resizeAngles (fun _ => F32.zero)
      (SampleSet2D.make [[F32.one]] [F32.zero] [F32.zero] false false
         SampleSet2D.MONOCHROMATIC_MODEL [F32.zero] SampleSet2D.UNKNOWN_SOURCE)
      2 1 = Returns this'
    /\ Z.of_nat (length (SampleSet2D.spectra_ this')) = 2 * 1
    /\ Z.of_nat (length (SampleSet2D.thetaAngles_ this')) = 2
    /\ Z.of_nat (length (SampleSet2D.phiAngles_ this')) = 1
    /\ (forall i : nat,
          (i < 1)%nat ->
          (i < length (SampleSet2D.spectra_ this'))%nat ->
          SampleSet2D.spectra_ this' !! i = [[F32.one]] !! i)
    /\ (forall i : nat,
          (1 <= i < length (SampleSet2D.spectra_ this'))%nat ->
          SampleSet2D.spectra_ this' !! i = Some []).
Proof.
  apply (resizeAngles_spec (fun _ => F32.zero)
           (SampleSet2D.make [[F32.one]] [F32.zero] [F32.zero] false false
              SampleSet2D.MONOCHROMATIC_MODEL [F32.zero]
              SampleSet2D.UNKNOWN_SOURCE) 2 1); vm_compute; congruence.
Defined.

Lemma resizeWavelengths_spec_witness :
  exists this',
    SampleSet2D.resizeWavelengths (fun _ => F32.zero)
      (SampleSet2D.make [[F32.one]; []] [F32.zero; F32.one] [F32.zero] false
         false SampleSet2D.SPECTRAL_MODEL [F32.zero]
         SampleSet2D.UNKNOWN_SOURCE)
      3 = Returns this'
    /\ Forall (fun sp : Spectrum => Z.of_nat (length sp) = 3)
              (SampleSet2D.spectra_ this')
    /\ Z.of_nat (length (SampleSet2D.wavelengths_ this')) = 3
    /\ SampleSet2D.thetaAngles_ this' = [F32.zero; F32.one]
    /\ SampleSet2D.phiAngles_ this' = [F32.zero]
    /\ length (SampleSet2D.spectra_ this') = 2%nat.
Proof.
  apply (resizeWavelengths_spec (fun _ => F32.zero)
           (SampleSet2D.make [[F32.one]; []] [F32.zero; F32.one] [F32.zero]
              false false SampleSet2D.SPECTRAL_MODEL [F32.zero]
              SampleSet2D.UNKNOWN_SOURCE) 3).
  - reflexivity.
  - lia.
Defined.

Lemma ctor_wavelengths_witness :
  exists this,
    SampleSet2D.ctor (fun _ => F32.zero)
      (fun n a _ => replicate (Z.to_nat n) a) (fun _ => true)
      F32.one F32.one 2 3 SampleSet2D.RGB_MODEL 31 false = Returns this
    /\ (SampleSet2D.RGB_MODEL = SampleSet2D.MONOCHROMATIC_MODEL ->
        length (SampleSet2D.wavelengths_ this) = 1%nat)
    /\ (SampleSet2D.RGB_MODEL <> SampleSet2D.MONOCHROMATIC_MODEL ->
        SampleSet2D.RGB_MODEL <> SampleSet2D.SPECTRAL_MODEL ->
        length (SampleSet2D.wavelengths_ this) = 3%nat)
    /\ (SampleSet2D.RGB_MODEL = SampleSet2D.SPECTRAL_MODEL ->
        Z.of_nat (length (SampleSet2D.wavelengths_ this)) = 31)
    /\ Forall (fun sp : Spectrum =>
                 length sp = length (SampleSet2D.wavelengths_ this))
              (SampleSet2D.spectra_ this)
    /\ Z.of_nat (length (SampleSet2D.spectra_ this)) = 2 * 3
    /\ SampleSet2D.colorModel_ this = SampleSet2D.RGB_MODEL.
Proof.
  apply (ctor_wavelengths (fun _ => F32.zero)
           (fun n a _ => replicate (Z.to_nat n) a) (fun _ => true)
           F32.one F32.one 2 3 SampleSet2D.RGB_MODEL 31 false).
  - lia.
  - lia.
  - vm_compute. congruence.
  - discriminate.
Defined.

Lemma Sampler_getSpectrum_2D_unchecked_witness :
  let inDir := Vec3.make F32.zero F32.zero (F32.opp F32.one) in
  let I : InterpolatorT unit :=
    Build_InterpolatorT unit
      (fun _ a0 a1 a2 a3 => [a0; a1; a2; a3]) (fun _ a0 a2 a3 => [a0; a2; a3])
      (fun _ a0 _ _ _ _ => a0) (fun _ a0 _ _ _ => a0)
      (fun _ theta phi => [theta; phi]) (fun _ theta => [theta]) in
  let ss2 :=
    SampleSet2D.make [[F32.one]] [F32.zero] [F32.zero] false false
      SampleSet2D.MONOCHROMATIC_MODEL [F32.zero] SampleSet2D.UNKNOWN_SOURCE in
  exists spectrum,
    Sampler.getSpectrum_2D (fun _ => true)
      (fun d => (Vec3.z d, Vec3.x d)) (fun a => a) I ss2 inDir
    = Returns spectrum.
Proof.
  cbv zeta.
  apply (Sampler_getSpectrum_2D_unchecked (SampleSet := unit)
           (fun _ => true) (fun _ => true)
           (fun d => (Vec3.z d, Vec3.x d)) (fun a => a)
           (Build_CoordSysT
              (fun a0 a1 a2 a3 => (Vec3.make a0 a1 F32.zero,
                                   Vec3.make a2 a3 F32.zero))
              (fun i o => (Vec3.x i, Vec3.y i, Vec3.x o, Vec3.y o))
              (fun i o => (Vec3.x i, Vec3.x o, Vec3.y o)))
           _ tt
           (Build_Brdf unit tt
              (fun i o => (Vec3.x i, Vec3.y i, Vec3.x o, Vec3.y o))
              (fun i o => (Vec3.x i, Vec3.x o, Vec3.y o)))
           _ (Vec3.make F32.zero F32.zero (F32.opp F32.one))
           (Vec3.make F32.zero F32.zero F32.one) 0).
  reflexivity.
Defined.

Lemma Sampler_getSpectrum_2D_angles_witness :
  let I : InterpolatorT unit :=
    Build_InterpolatorT unit
      (fun _ a0 a1 a2 a3 => [a0; a1; a2; a3]) (fun _ a0 a2 a3 => [a0; a2; a3])
      (fun _ a0 _ _ _ _ => a0) (fun _ a0 _ _ _ => a0)
      (fun _ theta phi => [theta; phi]) (fun _ theta => [theta]) in
  let ss2 :=
    SampleSet2D.make [[F32.one]] [F32.zero] [F32.zero] false false
      SampleSet2D.MONOCHROMATIC_MODEL [F32.zero] SampleSet2D.UNKNOWN_SOURCE in
  let inDir := Vec3.make F32.zero F32.zero F32.one in
  Sampler.getSpectrum_2D (fun _ => true)
    (fun d => (Vec3.z d, Vec3.x d)) (fun a => a) I ss2 inDir
  = Returns (Interpolator_getSpectrum1 I ss2 (Vec3.z inDir))
  /\ forall inDir' : Vec3,
       Vec3.z inDir' = Vec3.z inDir ->
       Sampler.getSpectrum_2D (fun _ => true)
         (fun d => (Vec3.z d, Vec3.x d)) (fun a => a) I ss2 inDir'
       = Sampler.getSpectrum_2D (fun _ => true)
           (fun d => (Vec3.z d, Vec3.x d)) (fun a => a) I ss2 inDir.
Proof.
  cbv zeta.
  apply (Sampler_getSpectrum_2D_angles (SampleSet := unit) (fun _ => true)
           (fun d => (Vec3.z d, Vec3.x d)) (fun a => a)).
  reflexivity.
Defined.

(* ===================================================================== *)
(** * Utility.h: clamp, sign, lerp, smoothstep, isEqual *)

(** [a < b] gives [a <= b]. *)
Lemma SFltb_leb (a b : spec_float) : SFltb a b = true -> SFleb a b = true.
Proof. unfold SFltb, SFleb. destruct (SFcompare a b) as [[]|]; congruence. Qed.

(** A float that is compared with success is not NaN and equals itself. *)
Lemma SFcompare_refl (a : spec_float) :
  a <> S754_nan -> SFcompare a a = Some Eq.
Proof.
  destruct a as [s|[|]| |[|] m e]; cbn; try congruence; intros _.
  - now rewrite Z.compare_refl, Pos.compare_cont_refl.
  - now rewrite Z.compare_refl, Pos.compare_cont_refl.
Qed.

Lemma SFleb_not_nan (a b : spec_float) :
  SFleb a b = true -> a <> S754_nan /\ b <> S754_nan.
Proof. destruct a, b; cbn; intros H; split; congruence. Qed.

Lemma SFleb_refl (a : spec_float) : a <> S754_nan -> SFleb a a = true.
Proof. intros H. unfold SFleb. now rewrite SFcompare_refl. Qed.

Lemma SFltb_irrefl (a : spec_float) : SFltb a a = false.
Proof.
  destruct a as [s|s| |s m e]; try reflexivity;
    unfold SFltb; now rewrite SFcompare_refl.
Qed.

(** X1.  clamp on [float].  With bounds [minValue <= maxValue] the result lies
  between them for every value, NaN included (a NaN value is clamped to
  [maxValue]). *)
Theorem clamp_float_bounds (value minValue maxValue : float) :
  F32.leb minValue maxValue = true ->
  F32.leb minValue (Utility.clamp F32.ltb value minValue maxValue) = true
  /\ F32.leb (Utility.clamp F32.ltb value minValue maxValue) maxValue = true
  /\ (F32.is_nan value = true ->
      Utility.clamp F32.ltb value minValue maxValue = maxValue
      \/ Utility.clamp F32.ltb value minValue maxValue = minValue).
Proof.
  intros Hle. destruct (SFleb_not_nan _ _ Hle) as [Hlo Hhi].
  unfold Utility.clamp, Utility.std_max, Utility.std_min, F32.leb, F32.ltb in *.
  destruct (SFltb value maxValue) eqn:Hv.
  - destruct (SFltb minValue value) eqn:Hm.
    + repeat split; auto using SFltb_leb.
      destruct value; discriminate.
    + repeat split; auto using SFleb_refl.
  - destruct (SFltb minValue maxValue) eqn:Hm.
    + repeat split; auto using SFleb_refl.
    + repeat split; auto using SFleb_refl.
Qed.

Lemma clamp_float_bounds_witness :
  F32.leb F32.zero (Utility.clamp F32.ltb S754_nan F32.zero F32.one) = true
  /\ F32.leb (Utility.clamp F32.ltb S754_nan F32.zero F32.one) F32.one = true
  /\ (F32.is_nan S754_nan = true ->
      Utility.clamp F32.ltb S754_nan F32.zero F32.one = F32.one
      \/ Utility.clamp F32.ltb S754_nan F32.zero F32.one = F32.zero).
Proof. apply (clamp_float_bounds S754_nan F32.zero F32.one). reflexivity. Defined.

(** X2.  clamp on [int].  With [minValue <= maxValue] the result is the value
  itself when it lies between the bounds, and the nearer bound otherwise;
  with [minValue > maxValue] it is [minValue] whatever the value. *)
Theorem clamp_int (value minValue maxValue : Z) :
  (minValue <= maxValue ->
     Utility.clamp Z.ltb value minValue maxValue
     = Z.max minValue (Z.min maxValue value)
     /\ minValue <= Utility.clamp Z.ltb value minValue maxValue <= maxValue
     /\ (minValue <= value <= maxValue ->
         Utility.clamp Z.ltb value minValue maxValue = value))
  /\ (maxValue < minValue ->
      Utility.clamp Z.ltb value minValue maxValue = minValue).
Proof.
  unfold Utility.clamp, Utility.std_max, Utility.std_min.
  destruct (Z.ltb_spec value maxValue), (Z.ltb_spec minValue value),
    (Z.ltb_spec minValue maxValue); repeat split; intros; lia.
Qed.

Lemma clamp_int_witness :
  Utility.clamp Z.ltb 7 0 5 = Z.max 0 (Z.min 5 7)
  /\ 0 <= Utility.clamp Z.ltb 7 0 5 <= 5
  /\ (0 <= 7 <= 5 -> Utility.clamp Z.ltb 7 0 5 = 7).
Proof. apply (clamp_int 7 0 5). lia. Defined.

(** X3.  sign on [float].  The result is -1, 0 or 1: 1 exactly for a value
  above zero, -1 exactly for one below, 0 for both zeros and for NaN; and
  the sign of [-val] is the opposite. *)
Theorem sign_float (val : float) :
  (Utility.sign F32.ltb F32.zero val = 1 <-> F32.ltb F32.zero val = true)
  /\ (Utility.sign F32.ltb F32.zero val = -1 <-> F32.ltb val F32.zero = true)
  /\ (Utility.sign F32.ltb F32.zero val = 0
      <-> F32.ltb F32.zero val = false /\ F32.ltb val F32.zero = false)
  /\ Utility.sign F32.ltb F32.zero (F32.opp val)
     = - Utility.sign F32.ltb F32.zero val
  /\ Utility.sign F32.ltb F32.zero S754_nan = 0.
Proof.
  unfold Utility.sign.
  destruct val as [s|[|]| |[|] m e]; cbn; repeat split; intros; try lia;
    try congruence; try (destruct s; reflexivity); intuition congruence.
Qed.

(** Shifting a mantissa that is not negative to the right. *)
Lemma shr_1_nonneg (mrs : shr_record) :
  0 <= shr_m mrs -> 0 <= shr_m (shr_1 mrs).
Proof.
  destruct mrs as [m r s]. cbn.
  destruct m as [|[p|p|]|[p|p|]]; cbn; lia.
Qed.

Lemma iter_pos_shr_1_nonneg (n : positive) (mrs : shr_record) :
  0 <= shr_m mrs -> 0 <= shr_m (@SpecFloat.iter_pos shr_record shr_1 n mrs).
Proof.
  revert mrs.
  induction n as [n IH|n IH|]; intros mrs H; cbn.
  - apply IH, IH, shr_1_nonneg, H.
  - apply IH, IH, H.
  - apply shr_1_nonneg, H.
Qed.

Lemma shr_fexp_nonneg (prec emax m e : Z) (l : location) :
  0 <= m -> 0 <= shr_m (shr_fexp prec emax m e l).1.
Proof.
  intros H. unfold shr_fexp, shr.
  assert (H0 : 0 <= shr_m (shr_record_of_loc m l))
    by (destruct l as [|[]]; exact H).
  destruct (fexp prec emax (Zdigits2 m + e) - e); cbn; auto.
  apply iter_pos_shr_1_nonneg, H0.
Qed.

(** Rounding a mantissa that is not negative never gives NaN. *)
Lemma binary_round_aux_not_nan (prec emax : Z) (s : bool) (m e : Z)
    (l : location) :
  0 <= m -> binary_round_aux prec emax s m e l <> S754_nan.
Proof.
  intros H. unfold binary_round_aux.
  pose proof (shr_fexp_nonneg prec emax m e l H) as H1.
  destruct (shr_fexp prec emax m e l) as [mrs' e']. cbn in H1.
  assert (H2 : 0 <= round_nearest_even (shr_m mrs') (loc_of_shr_record mrs')).
  { unfold round_nearest_even.
    destruct (loc_of_shr_record mrs') as [|[]]; try lia.
    destruct (Z.even (shr_m mrs')); lia. }
  pose proof (shr_fexp_nonneg prec emax _ e' loc_Exact H2) as H3.
  destruct (shr_fexp prec emax _ e' loc_Exact) as [mrs'' e'']. cbn in H3.
  destruct (shr_m mrs''); [discriminate | | lia].
  destruct (e'' <=? emax - prec); discriminate.
Qed.

(** The product of two floats that are zero or above is zero or above, or
  an infinity: never NaN unless a zero meets an infinity. *)
Lemma mul_nonneg_finite (a b : float) :
  F32.is_finite a = true -> F32.is_finite b = true ->
  F32.leb F32.zero a = true -> F32.leb F32.zero b = true ->
  F32.leb F32.zero (F32.mul a b) = true.
Proof.
  destruct a as [sa|sa| |[|] ma ea], b as [sb|sb| |[|] mb eb]; cbn;
    try discriminate; try reflexivity; intros _ _ _ _.
  pose proof (binary_round_aux_sign F32.prec F32.emax false
                (Z.pos (ma * mb)) (ea + eb) loc_Exact) as Hs.
  pose proof (binary_round_aux_not_nan F32.prec F32.emax false
                (Z.pos (ma * mb)) (ea + eb) loc_Exact) as Hn.
  unfold F32.mul, SFmul. cbn [xorb].
  destruct (binary_round_aux _ _ _ _ _ _) as [s|s| |s m e]; cbn in *;
    subst; try reflexivity.
  exfalso. apply Hn; [lia | reflexivity].
Qed.

Lemma SFeqb_refl (a : spec_float) : a <> S754_nan -> SFeqb a a = true.
Proof. intros H. unfold SFeqb. now rewrite SFcompare_refl. Qed.

(** [a - a] is [+0] for a finite [a]. *)
Lemma sub_diag (a : float) :
  F32.is_finite a = true -> F32.sub a a = S754_zero false.
Proof.
  destruct a as [[|]|s| |s m e]; cbn; try discriminate; try reflexivity.
  intros _. unfold F32.sub, SFsub. cbv zeta. now rewrite Z.sub_diag.
Qed.

(** X5.  lerp.  At [t = 0] the result is [v0] (up to the sign of a zero) when
  the difference [v1 - v0] is finite, and NaN when the difference is not (it
  overflows for finite ends far apart, and [inf * 0] is NaN).  Between equal
  finite ends the result is that end for every finite [t]. *)
Theorem lerp_edges (v0 v1 t : float) :
  (F32.is_finite (F32.sub v1 v0) = true -> F32.is_nan v0 = false ->
     F32.eqb (Utility.lerp v0 v1 F32.zero) v0 = true)
  /\ (F32.is_finite (F32.sub v1 v0) = false ->
      Utility.lerp v0 v1 F32.zero = S754_nan)
  /\ (F32.is_finite v0 = true -> F32.is_finite t = true ->
      F32.eqb (Utility.lerp v0 v0 t) v0 = true).
Proof.
  unfold Utility.lerp. split; [|split].
  - destruct (F32.sub v1 v0) as [sd|sd| |sd md ed]; try discriminate;
      intros _ Hn.
    all: destruct v0 as [s0|s0| |s0 m0 e0]; try discriminate.
    all: try (destruct s0, sd; reflexivity).
    all: change (F32.eqb (S754_finite s0 m0 e0) (S754_finite s0 m0 e0) = true);
      now apply SFeqb_refl.
  - destruct (F32.sub v1 v0) as [sd|sd| |sd md ed]; try discriminate;
      intros _; destruct v0; reflexivity.
  - intros H0 Ht. rewrite sub_diag by exact H0.
    destruct t as [st|st| |st mt et]; try discriminate.
    all: destruct v0 as [s0|s0| |s0 m0 e0]; try discriminate.
    all: try (destruct s0, st; reflexivity).
    all: change (F32.eqb (S754_finite s0 m0 e0) (S754_finite s0 m0 e0) = true);
      now apply SFeqb_refl.
Qed.

Lemma lerp_edges_witness :
  Utility.lerp (S754_finite true 16777215 104) (S754_finite false 16777215 104)
    F32.zero = S754_nan.
Proof.
  apply (lerp_edges (S754_finite true 16777215 104)
           (S754_finite false 16777215 104) F32.zero).
  vm_compute. reflexivity.
Defined.

(** X6.  smoothstep and smootherstep on an empty interval.  With [v0 = v1]
  finite the quotient is an infinity or NaN; the clamp turns it into 0 or 1,
  and the result is exactly 0 when [t - v0] is below zero and exactly 1
  otherwise: never NaN. *)
Theorem smoothstep_empty_interval (v0 t : float) :
  F32.is_finite v0 = true ->
  Utility.smoothstep v0 v0 t
  = (if F32.ltb (F32.sub t v0) F32.zero then F32.zero else F32.one)
  /\ Utility.smootherstep v0 v0 t
     = (if F32.ltb (F32.sub t v0) F32.zero then F32.zero else F32.one).
Proof.
  intros H0. unfold Utility.smoothstep, Utility.smootherstep.
  rewrite sub_diag by exact H0.
  destruct (F32.sub t v0) as [[|]|[|]| |[|] m e]; split; vm_compute; reflexivity.
Qed.

Lemma smoothstep_empty_interval_witness :
  Utility.smoothstep F32.one F32.one F32.one
  = (if F32.ltb (F32.sub F32.one F32.one) F32.zero then F32.zero else F32.one)
  /\ Utility.smootherstep F32.one F32.one F32.one
     = (if F32.ltb (F32.sub F32.one F32.one) F32.zero then F32.zero
        else F32.one).
Proof. apply (smoothstep_empty_interval F32.one F32.one). reflexivity. Defined.

(** X4.  isEqual.  A number is nearly equal to itself exactly when it is
  finite: [inf - inf] is NaN, so an infinity is not equal to itself; and
  nothing is nearly equal to NaN. *)
Theorem isEqual_self (a b : float) :
  Utility.isEqual a a = F32.is_finite a
  /\ Utility.isEqual S754_nan b = false
  /\ Utility.isEqual b S754_nan = false.
Proof.
  split; [|split].
  - unfold Utility.isEqual.
    destruct (F32.is_finite a) eqn:Hf.
    + rewrite sub_diag by exact Hf. cbn [SFabs].
      unfold Utility.std_max at 2. rewrite SFltb_irrefl.
      set (M := Utility.std_max F32.ltb (SFabs a) F32.one).
      assert (HM : F32.is_finite M = true /\ F32.leb F32.zero M = true).
      { unfold M, Utility.std_max.
        destruct (F32.ltb (SFabs a) F32.one); [split; reflexivity|].
        destruct a as [s|s| |s m e]; try discriminate; split; reflexivity. }
      destruct HM as [HM1 HM2].
      assert (He : F32.leb F32.zero (F32.mul Utility.epsilon M) = true)
        by (apply mul_nonneg_finite; auto).
      destruct (F32.mul Utility.epsilon M) as [s|s| |s m e] eqn:E;
        try discriminate.
      * destruct s; reflexivity.
      * destruct s; [discriminate | reflexivity].
      * change (F32.leb F32.zero (F32.mul (S754_finite s m e) (F32.of_Z 2))
                = true).
        apply mul_nonneg_finite; auto.
    + destruct a as [s|[|]| |s m e]; try discriminate; reflexivity.
  - reflexivity.
  - unfold Utility.isEqual. destruct b; reflexivity.
Qed.

(* ===================================================================== *)
(** * SampleSet2D.cpp: failures, the invariant and clampAngles *)

Lemma Vector_resize_same {A : Type} (dflt : A) (v : list A) :
  Vector.resize dflt v (length v) = v.
Proof.
  unfold Vector.resize.
  rewrite firstn_all, Nat.sub_diag. apply app_nil_r.
Qed.

Lemma Eigen_resize_same (uninit : nat -> float) (a : Arrayf) :
  Eigen.resize uninit a (Z.of_nat (length a)) = a.
Proof. unfold Eigen.resize. now rewrite Z.eqb_refl. Qed.

Section SampleSet2DMore.

Variable uninit : nat -> float.
Variable LinSpaced : Z -> float -> float -> Arrayf.
Variable isEqualInterval : Arrayf -> bool.
Variables MAX_ANGLE0 MAX_ANGLE1 : float.

(** What [resizeAngles] returns. *)
Lemma resizeAngles_Returns (this : SampleSet2D.t) (numTheta numPhi : Z) :
  0 < numTheta -> 0 < numPhi -> numTheta * numPhi <= INT_MAX ->
  SampleSet2D.resizeAngles uninit this numTheta numPhi
  = Returns
      (SampleSet2D.make
         (Vector.resize [] (SampleSet2D.spectra_ this)
            (Z.to_nat (numTheta * numPhi)))
         (Eigen.resize uninit (SampleSet2D.thetaAngles_ this) numTheta)
         (Eigen.resize uninit (SampleSet2D.phiAngles_ this) numPhi)
         (SampleSet2D.equalIntervalTheta_ this)
         (SampleSet2D.equalIntervalPhi_ this)
         (SampleSet2D.colorModel_ this)
         (SampleSet2D.wavelengths_ this)
         (SampleSet2D.sourceType_ this)).
Proof.
  intros HT HP Hmul. unfold SampleSet2D.resizeAngles.
  assert (Hpos : 0 < numTheta * numPhi) by (apply Z.mul_pos_pos; assumption).
  destruct (Z.ltb_spec 0 numTheta) as [_|?]; [|lia].
  destruct (Z.ltb_spec 0 numPhi) as [_|?]; [|lia]. cbn.
  unfold int_mul, INT_MIN, INT_MAX in *.
  destruct (Z.leb_spec (- 2 ^ 31) (numTheta * numPhi)) as [_|?]; [|lia].
  destruct (Z.leb_spec (numTheta * numPhi) (2 ^ 31 - 1)) as [_|?]; [|lia].
  reflexivity.
Qed.

(** X11.  resizeAngles and the invariant.  From any state, even one that has
  lost the invariant, a call with positive numbers of angles whose product
  is an [int] returns a grid with one cell for each pair of angles; the
  wavelengths, the color model and the two equal-interval flags are not
  touched, so the flags still describe the axes as they were. *)
Theorem resizeAngles_establishes_wf (this : SampleSet2D.t)
    (numTheta numPhi : Z) :
  0 < numTheta -> 0 < numPhi -> numTheta * numPhi <= INT_MAX ->
  exists this',
    SampleSet2D.resizeAngles uninit this numTheta numPhi = Returns this'
    /\ SampleSet2D.wf this'
    /\ SampleSet2D.wavelengths_ this' = SampleSet2D.wavelengths_ this
    /\ SampleSet2D.colorModel_ this' = SampleSet2D.colorModel_ this
    /\ SampleSet2D.equalIntervalTheta_ this'
       = SampleSet2D.equalIntervalTheta_ this
    /\ SampleSet2D.equalIntervalPhi_ this'
       = SampleSet2D.equalIntervalPhi_ this.
Proof.
  intros HT HP Hmul.
  rewrite resizeAngles_Returns by assumption.
  eexists. split; [reflexivity|].
  unfold SampleSet2D.wf. cbn.
  rewrite Vector_resize_length, !Eigen_resize_length.
  repeat split. rewrite Z2Nat.inj_mul by lia. reflexivity.
Qed.

(** X12.  resizeAngles to the sizes the grid has.  On a grid with the
  invariant, asking for the present numbers of angles changes nothing:
  axes and spectra are kept. *)
Theorem resizeAngles_same_size (this : SampleSet2D.t) :
  SampleSet2D.wf this ->
  (0 < length (SampleSet2D.thetaAngles_ this))%nat ->
  (0 < length (SampleSet2D.phiAngles_ this))%nat ->
  Z.of_nat (length (SampleSet2D.spectra_ this)) <= INT_MAX ->
  SampleSet2D.resizeAngles uninit this
    (Z.of_nat (length (SampleSet2D.thetaAngles_ this)))
    (Z.of_nat (length (SampleSet2D.phiAngles_ this)))
  = Returns this.
Proof.
  intros Hwf HT HP Hmax. unfold SampleSet2D.wf in Hwf.
  rewrite resizeAngles_Returns by (rewrite <- ?Nat2Z.inj_mul; lia).
  rewrite <- Nat2Z.inj_mul, Nat2Z.id, <- Hwf.
  rewrite Vector_resize_same, !Eigen_resize_same.
  destruct this; reflexivity.
Qed.

(** X13.  resizeWavelengths off the invariant.  A count that is not positive
  fails the assertion; on a grid with fewer cells than pairs of angles the
  loop throws [std::out_of_range]; on a grid with at least as many the call
  returns, the cells of the pairs get spectra of the new length and the
  cells beyond them keep theirs. *)
Theorem resizeWavelengths_outcomes (this : SampleSet2D.t)
    (numWavelengths : Z) :
  let numSamples :=
    (length (SampleSet2D.thetaAngles_ this)
     * length (SampleSet2D.phiAngles_ this))%nat in
  (numWavelengths <= 0 ->
     SampleSet2D.resizeWavelengths uninit this numWavelengths
     = Aborts assertion_failed)
  /\ (0 < numWavelengths ->
      (length (SampleSet2D.spectra_ this) < numSamples)%nat ->
      SampleSet2D.resizeWavelengths uninit this numWavelengths
      = Aborts out_of_range)
  /\ (0 < numWavelengths ->
      (numSamples <= length (SampleSet2D.spectra_ this))%nat ->
      exists this',
        SampleSet2D.resizeWavelengths uninit this numWavelengths
        = Returns this'
        /\ (forall (i : nat) (sp : Spectrum),
              (i < numSamples)%nat ->
              SampleSet2D.spectra_ this' !! i = Some sp ->
              Z.of_nat (length sp) = numWavelengths)
        /\ (forall i : nat,
              (numSamples <= i)%nat ->
              SampleSet2D.spectra_ this' !! i
              = SampleSet2D.spectra_ this !! i)).
Proof.
  cbv zeta. unfold SampleSet2D.resizeWavelengths.
  split; [|split].
  - intros Hn. destruct (Z.ltb_spec 0 numWavelengths); [lia | reflexivity].
  - intros Hn Hlen. destruct (Z.ltb_spec 0 numWavelengths); [|lia]. cbn.
    rewrite assign_spectra_Aborts by lia. reflexivity.
  - intros Hn Hlen. destruct (Z.ltb_spec 0 numWavelengths); [|lia]. cbn.
    destruct (assign_spectra_Returns uninit
                (length (SampleSet2D.thetaAngles_ this)
                 * length (SampleSet2D.phiAngles_ this)) 0 numWavelengths
                (SampleSet2D.spectra_ this))
      as (spectra' & -> & Hl & Hin & Hout); [lia|].
    cbn. eexists. split; [reflexivity|]. cbn. split.
    + intros i sp Hi Hsp. rewrite Hin in Hsp by lia. injection Hsp as <-.
      rewrite Eigen_resize_length. lia.
    + intros i Hi. apply Hout. lia.
Qed.

(** X14.  resizeAngles, then resizeWavelengths.  From any state the two calls
  in a row return a grid with one cell for each pair of angles, every
  spectrum and the wavelength array of the length asked for, and axes of
  the lengths asked for. *)
Theorem resizeAngles_resizeWavelengths (this : SampleSet2D.t)
    (numTheta numPhi numWavelengths : Z) :
  0 < numTheta -> 0 < numPhi -> numTheta * numPhi <= INT_MAX ->
  0 < numWavelengths ->
  exists this',
    (this1 ← SampleSet2D.resizeAngles uninit this numTheta numPhi;
     SampleSet2D.resizeWavelengths uninit this1 numWavelengths)
    = Returns this'
    /\ SampleSet2D.wf this'
    /\ Z.of_nat (length (SampleSet2D.thetaAngles_ this')) = numTheta
    /\ Z.of_nat (length (SampleSet2D.phiAngles_ this')) = numPhi
    /\ Forall (fun sp : Spectrum => Z.of_nat (length sp) = numWavelengths)
              (SampleSet2D.spectra_ this')
    /\ Z.of_nat (length (SampleSet2D.wavelengths_ this')) = numWavelengths.
Proof.
  intros HT HP Hmul Hn.
  assert (Hpos : 0 < numTheta * numPhi) by (apply Z.mul_pos_pos; assumption).
  rewrite resizeAngles_Returns by assumption. cbn [mbind outcome_bind].
  unfold SampleSet2D.resizeWavelengths.
  destruct (Z.ltb_spec 0 numWavelengths); [|lia]. cbn.
  rewrite !Eigen_resize_length, <- Z2Nat.inj_mul by lia.
  set (cells := Vector.resize [] (SampleSet2D.spectra_ this)
                  (Z.to_nat (numTheta * numPhi))).
  assert (Hcells : length cells = Z.to_nat (numTheta * numPhi))
    by apply Vector_resize_length.
  rewrite <- Hcells.
  destruct (assign_spectra_all uninit numWavelengths cells)
    as (spectra' & Hrun & Hl & Hall).
  unfold Spectrum in *. rewrite Hrun. cbn.
  eexists. split; [reflexivity|]. unfold SampleSet2D.wf. cbn.
  rewrite !Eigen_resize_length.
  repeat split; try lia.
  - etransitivity; [exact Hl|]. etransitivity; [exact Hcells|].
    apply Z2Nat.inj_mul; lia.
  - eapply Forall_impl; [exact Hall|]. cbn. intros sp Hsp. lia.
Qed.

(** [std::max] and [std::min] with the bounds of an axis. *)
Lemma clamp_angle_range (MAX a : float) :
  F32.leb F32.zero MAX = true ->
  let r := Utility.std_min F32.ltb (Utility.std_max F32.ltb a F32.zero) MAX in
  F32.ltb r F32.zero = false /\ F32.ltb MAX r = false.
Proof.
  intros HM. cbv zeta. unfold Utility.std_min, Utility.std_max.
  assert (H0 : F32.ltb MAX F32.zero = false)
    by (destruct MAX as [s|[|]| |[|] m e]; cbn in *; congruence).
  destruct (F32.ltb a F32.zero) eqn:Ha.
  - rewrite H0. split; [reflexivity | exact H0].
  - destruct (F32.ltb MAX a) eqn:Hb; split; auto using SFltb_irrefl.
Qed.

Lemma clamp_angle_fixed (MAX a : float) :
  F32.ltb a F32.zero = false -> F32.ltb MAX a = false ->
  Utility.std_min F32.ltb (Utility.std_max F32.ltb a F32.zero) MAX = a.
Proof.
  intros Ha Hb. unfold Utility.std_min, Utility.std_max. now rewrite Ha, Hb.
Qed.

(** X15.  clampAngles.  With maximal angles that are at least 0, no angle of
  the result is below 0 or above the maximum of its axis (an angle within
  the range, or NaN, is kept as it is); the lengths of the axes, the
  spectra and the wavelengths are untouched, so the invariant is kept; and
  a second call changes nothing. *)
Theorem clampAngles_spec (this : SampleSet2D.t) :
  F32.leb F32.zero MAX_ANGLE0 = true ->
  F32.leb F32.zero MAX_ANGLE1 = true ->
  let this' := SampleSet2D.clampAngles MAX_ANGLE0 MAX_ANGLE1 this in
  Forall (fun a => F32.ltb a F32.zero = false
                   /\ F32.ltb MAX_ANGLE0 a = false)
         (SampleSet2D.thetaAngles_ this')
  /\ Forall (fun a => F32.ltb a F32.zero = false
                      /\ F32.ltb MAX_ANGLE1 a = false)
            (SampleSet2D.phiAngles_ this')
  /\ length (SampleSet2D.thetaAngles_ this')
     = length (SampleSet2D.thetaAngles_ this)
  /\ length (SampleSet2D.phiAngles_ this')
     = length (SampleSet2D.phiAngles_ this)
  /\ SampleSet2D.spectra_ this' = SampleSet2D.spectra_ this
  /\ SampleSet2D.wavelengths_ this' = SampleSet2D.wavelengths_ this
  /\ (SampleSet2D.wf this -> SampleSet2D.wf this')
  /\ SampleSet2D.clampAngles MAX_ANGLE0 MAX_ANGLE1 this' = this'.
Proof.
  intros H0 H1. cbv zeta. unfold SampleSet2D.clampAngles, SampleSet2D.wf.
  cbn. rewrite !map_map, !length_map.
  assert (HT : Forall (fun a => F32.ltb a F32.zero = false
                                /\ F32.ltb MAX_ANGLE0 a = false)
      (map (fun a => Utility.std_min F32.ltb
                       (Utility.std_max F32.ltb a F32.zero) MAX_ANGLE0)
           (SampleSet2D.thetaAngles_ this))).
  { apply Forall_map, Forall_forall. intros a _.
    now apply clamp_angle_range. }
  assert (HP : Forall (fun a => F32.ltb a F32.zero = false
                                /\ F32.ltb MAX_ANGLE1 a = false)
      (map (fun a => Utility.std_min F32.ltb
                       (Utility.std_max F32.ltb a F32.zero) MAX_ANGLE1)
           (SampleSet2D.phiAngles_ this))).
  { apply Forall_map, Forall_forall. intros a _.
    now apply clamp_angle_range. }
  repeat split; auto.
  unfold SampleSet2D.set_angles. cbn. f_equal; apply map_ext; intros a.
  - destruct (clamp_angle_range MAX_ANGLE0 a H0). now apply clamp_angle_fixed.
  - destruct (clamp_angle_range MAX_ANGLE1 a H1). now apply clamp_angle_fixed.
Qed.

End SampleSet2DMore.

Section SampleSet2DCtor.

Variable uninit : nat -> float.
Variable LinSpaced : Z -> float -> float -> Arrayf.
Variable isEqualInterval : Arrayf -> bool.
Variables MAX_ANGLE0 MAX_ANGLE1 : float.

(** The wavelength count the color model leaves. *)
Lemma ctor_Returns (numTheta numPhi : Z)
    (colorModel : SampleSet2D.ColorModel) (numWavelengths : Z)
    (equalIntervalAngles : bool) :
  let n := if decide (colorModel = SampleSet2D.MONOCHROMATIC_MODEL) then 1
           else if decide (colorModel <> SampleSet2D.SPECTRAL_MODEL) then 3
           else numWavelengths in
  let theta := if equalIntervalAngles
               then LinSpaced numTheta F32.zero MAX_ANGLE0
               else Eigen.resize uninit [] numTheta in
  let phi := if equalIntervalAngles
             then LinSpaced numPhi F32.zero MAX_ANGLE1
             else Eigen.resize uninit [] numPhi in
  0 < numTheta -> 0 < numPhi -> numTheta * numPhi <= INT_MAX -> 0 < n ->
  exists spectra,
    SampleSet2D.ctor uninit LinSpaced isEqualInterval MAX_ANGLE0 MAX_ANGLE1
      numTheta numPhi colorModel numWavelengths equalIntervalAngles
    = Returns
        (SampleSet2D.make spectra theta phi
           (equalIntervalAngles && isEqualInterval theta)
           (equalIntervalAngles && isEqualInterval phi)
           colorModel
           (if decide (colorModel = SampleSet2D.SPECTRAL_MODEL)
            then Eigen.resize uninit [] n else Eigen.Zero n)
           SampleSet2D.UNKNOWN_SOURCE)
    /\ length spectra = Z.to_nat (numTheta * numPhi).
Proof.
  cbv zeta. intros HT HP Hmul Hn. unfold SampleSet2D.ctor.
  assert (Hpos : 0 < numTheta * numPhi) by (apply Z.mul_pos_pos; assumption).
  destruct (Z.ltb_spec 0 numTheta) as [_|?]; [|lia].
  destruct (Z.ltb_spec 0 numPhi) as [_|?]; [|lia]. cbn.
  unfold int_mul, INT_MIN, INT_MAX in *.
  destruct (Z.leb_spec (- 2 ^ 31) (numTheta * numPhi)) as [_|?]; [|lia].
  destruct (Z.leb_spec (numTheta * numPhi) (2 ^ 31 - 1)) as [_|?]; [|lia]. cbn.
  set (n := if decide (colorModel = SampleSet2D.MONOCHROMATIC_MODEL) then 1
            else if decide (colorModel <> SampleSet2D.SPECTRAL_MODEL) then 3
            else numWavelengths) in *.
  destruct (Z.ltb_spec 0 n) as [_|?]; [|lia]. cbn.
  set (cells := Vector.resize [] [] (Z.to_nat (numTheta * numPhi))).
  assert (Hcells : length cells = Z.to_nat (numTheta * numPhi))
    by apply Vector_resize_length.
  destruct (assign_spectra_all uninit n cells) as (spectra' & Hrun & Hl & _).
  exists spectra'. split; [|exact (eq_trans Hl Hcells)].
  destruct equalIntervalAngles; cbn; rewrite <- Hcells;
    unfold Spectrum in *; rewrite Hrun; cbn; f_equal.
  all: destruct colorModel; reflexivity.
Qed.

(** When the constructor returns, its arguments passed both assertions. *)
Lemma ctor_Returns_inv (numTheta numPhi : Z)
    (colorModel : SampleSet2D.ColorModel) (numWavelengths : Z)
    (equalIntervalAngles : bool) (this : SampleSet2D.t) :
  SampleSet2D.ctor uninit LinSpaced isEqualInterval MAX_ANGLE0 MAX_ANGLE1
    numTheta numPhi colorModel numWavelengths equalIntervalAngles
  = Returns this ->
  0 < numTheta /\ 0 < numPhi
  /\ (colorModel = SampleSet2D.SPECTRAL_MODEL -> 0 < numWavelengths).
Proof.
  unfold SampleSet2D.ctor.
  destruct (Z.ltb_spec 0 numTheta); [|discriminate].
  destruct (Z.ltb_spec 0 numPhi); [|discriminate]. cbn.
  destruct (int_mul numTheta numPhi); [|discriminate]. cbn.
  match goal with
  | |- context [0 <? ?n] => destruct (Z.ltb_spec 0 n) as [Hn|Hn]
  end; [|discriminate].
  intros _. repeat split; auto.
  intros ->. exact Hn.
Qed.

(** X9.  the failures of the constructor.  A number of angles that is not
  positive fails the first assertion; a spectral grid asked for with a
  wavelength count that is not positive fails the second one, while for
  the other color models the count asked for is not looked at; and the
  constructor returns only when its arguments pass both assertions. *)
Theorem ctor_outcomes (numTheta numPhi : Z)
    (colorModel : SampleSet2D.ColorModel) (numWavelengths : Z)
    (equalIntervalAngles : bool) :
  (numTheta <= 0 \/ numPhi <= 0 ->
     SampleSet2D.ctor uninit LinSpaced isEqualInterval MAX_ANGLE0 MAX_ANGLE1
       numTheta numPhi colorModel numWavelengths equalIntervalAngles
     = Aborts assertion_failed)
  /\ (0 < numTheta -> 0 < numPhi -> numTheta * numPhi <= INT_MAX ->
      colorModel = SampleSet2D.SPECTRAL_MODEL -> numWavelengths <= 0 ->
      SampleSet2D.ctor uninit LinSpaced isEqualInterval MAX_ANGLE0 MAX_ANGLE1
        numTheta numPhi colorModel numWavelengths equalIntervalAngles
      = Aborts assertion_failed)
  /\ (0 < numTheta -> 0 < numPhi -> numTheta * numPhi <= INT_MAX ->
      colorModel <> SampleSet2D.SPECTRAL_MODEL ->
      exists this,
        SampleSet2D.ctor uninit LinSpaced isEqualInterval MAX_ANGLE0
          MAX_ANGLE1 numTheta numPhi colorModel numWavelengths
          equalIntervalAngles = Returns this)
  /\ (forall this,
        SampleSet2D.ctor uninit LinSpaced isEqualInterval MAX_ANGLE0
          MAX_ANGLE1 numTheta numPhi colorModel numWavelengths
          equalIntervalAngles = Returns this ->
        0 < numTheta /\ 0 < numPhi
        /\ (colorModel = SampleSet2D.SPECTRAL_MODEL -> 0 < numWavelengths)).
Proof.
  split; [|split; [|split]].
  - intros H. unfold SampleSet2D.ctor.
    destruct (Z.ltb_spec 0 numTheta), (Z.ltb_spec 0 numPhi);
      try reflexivity; lia.
  - intros HT HP Hmul -> Hn. unfold SampleSet2D.ctor, int_mul.
    assert (Hpos : 0 < numTheta * numPhi) by (apply Z.mul_pos_pos; assumption).
    destruct (Z.ltb_spec 0 numTheta) as [_|?]; [|lia].
    destruct (Z.ltb_spec 0 numPhi) as [_|?]; [|lia]. cbn.
    unfold INT_MIN, INT_MAX in *.
    destruct (Z.leb_spec (- 2 ^ 31) (numTheta * numPhi)) as [_|?]; [|lia].
    destruct (Z.leb_spec (numTheta * numPhi) (2 ^ 31 - 1)) as [_|?]; [|lia].
    cbn.
    destruct (decide (SampleSet2D.SPECTRAL_MODEL
                      = SampleSet2D.MONOCHROMATIC_MODEL)) as [E|_];
      [discriminate E|].
    destruct (decide (SampleSet2D.SPECTRAL_MODEL
                      <> SampleSet2D.SPECTRAL_MODEL)) as [E|_];
      [contradiction|].
    destruct (Z.ltb_spec 0 numWavelengths); [lia | reflexivity].
  - intros HT HP Hmul Hcm.
    destruct (ctor_Returns numTheta numPhi colorModel numWavelengths
                equalIntervalAngles HT HP Hmul) as (spectra & Hrun & _).
    { destruct colorModel; try reflexivity. now contradiction Hcm. }
    eauto.
  - apply ctor_Returns_inv.
Qed.

(** X10.  the grid the constructor builds.  With a [LinSpaced] that gives as
  many values as asked for, positive numbers of angles whose product is an
  [int] and a wavelength count that passes the assertion, the constructor
  returns a grid with one cell for each pair of angles and axes of the
  lengths asked for; with equal intervals the axes are the two [LinSpaced]
  arrays and the flags say whether [isEqualInterval] finds them so, without
  them both flags are off; and for every color model but the spectral one
  all wavelengths are zero. *)
Theorem ctor_grid (numTheta numPhi : Z)
    (colorModel : SampleSet2D.ColorModel) (numWavelengths : Z)
    (equalIntervalAngles : bool) :
  (forall (n : Z) (a b : float), 0 < n ->
     length (LinSpaced n a b) = Z.to_nat n) ->
  0 < numTheta -> 0 < numPhi -> numTheta * numPhi <= INT_MAX ->
  (colorModel = SampleSet2D.SPECTRAL_MODEL -> 0 < numWavelengths) ->
  exists this,
    SampleSet2D.ctor uninit LinSpaced isEqualInterval MAX_ANGLE0 MAX_ANGLE1
      numTheta numPhi colorModel numWavelengths equalIntervalAngles
    = Returns this
    /\ SampleSet2D.wf this
    /\ Z.of_nat (length (SampleSet2D.thetaAngles_ this)) = numTheta
    /\ Z.of_nat (length (SampleSet2D.phiAngles_ this)) = numPhi
    /\ (equalIntervalAngles = true ->
        SampleSet2D.thetaAngles_ this
        = LinSpaced numTheta F32.zero MAX_ANGLE0
        /\ SampleSet2D.phiAngles_ this = LinSpaced numPhi F32.zero MAX_ANGLE1
        /\ SampleSet2D.equalIntervalTheta_ this
           = isEqualInterval (LinSpaced numTheta F32.zero MAX_ANGLE0)
        /\ SampleSet2D.equalIntervalPhi_ this
           = isEqualInterval (LinSpaced numPhi F32.zero MAX_ANGLE1))
    /\ (equalIntervalAngles = false ->
        SampleSet2D.equalIntervalTheta_ this = false
        /\ SampleSet2D.equalIntervalPhi_ this = false)
    /\ (colorModel <> SampleSet2D.SPECTRAL_MODEL ->
        Forall (fun w => w = F32.zero) (SampleSet2D.wavelengths_ this)).
Proof.
  intros HLin HT HP Hmul Hspec.
  destruct (ctor_Returns numTheta numPhi colorModel numWavelengths
              equalIntervalAngles HT HP Hmul) as (spectra & Hrun & Hl).
  { destruct colorModel; try reflexivity. now apply Hspec. }
  eexists. split; [exact Hrun|].
  unfold SampleSet2D.wf.
  cbn [SampleSet2D.spectra_ SampleSet2D.thetaAngles_ SampleSet2D.phiAngles_
       SampleSet2D.sourceType_ SampleSet2D.equalIntervalTheta_
       SampleSet2D.equalIntervalPhi_ SampleSet2D.wavelengths_].
  assert (Hwl : colorModel <> SampleSet2D.SPECTRAL_MODEL ->
    Forall (fun w => w = F32.zero)
      (if decide (colorModel = SampleSet2D.SPECTRAL_MODEL)
       then Eigen.resize uninit []
              (if decide (colorModel = SampleSet2D.MONOCHROMATIC_MODEL) then 1
               else if decide (colorModel <> SampleSet2D.SPECTRAL_MODEL)
                    then 3 else numWavelengths)
       else Eigen.Zero
              (if decide (colorModel = SampleSet2D.MONOCHROMATIC_MODEL) then 1
               else if decide (colorModel <> SampleSet2D.SPECTRAL_MODEL)
                    then 3 else numWavelengths))).
  { intros Hcm. rewrite (decide_False (P := colorModel = _)) by exact Hcm.
    unfold Eigen.Zero. apply Forall_forall. intros w Hw.
    apply elem_of_replicate in Hw. tauto. }
  destruct equalIntervalAngles; cbn [andb];
    rewrite ?HLin, ?Eigen_resize_length, Hl by lia;
    (split; [apply Z2Nat.inj_mul; lia|]);
    (split; [lia|]); (split; [lia|]);
    (split; [intros E; try discriminate E; repeat split; reflexivity|]);
    (split; [|exact Hwl]); intros E; try discriminate E; split; reflexivity.
Qed.

End SampleSet2DCtor.

(* ===================================================================== *)
(** * Sums and products do not depend on the order of the operands *)

Lemma SFadd_comm (prec emax : Z) (a b : spec_float) :
  SFadd prec emax a b = SFadd prec emax b a.
Proof.
  destruct a as [[|]|[|]| |sa ma ea], b as [[|]|[|]| |sb mb eb];
    try reflexivity.
  cbn. rewrite (Z.min_comm eb ea). f_equal. apply Z.add_comm.
Qed.

Lemma SFmul_comm (prec emax : Z) (a b : spec_float) :
  SFmul prec emax a b = SFmul prec emax b a.
Proof.
  destruct a as [sa|sa| |sa ma ea], b as [sb|sb| |sb mb eb]; cbn;
    try reflexivity; try (now rewrite xorb_comm).
  now rewrite xorb_comm, Pos.mul_comm, Z.add_comm.
Qed.

Lemma F32_mul_comm (a b : float) : F32.mul a b = F32.mul b a.
Proof. apply SFmul_comm. Qed.

Lemma Vec3_add_comm (a b : Vec3) : Vec3.add a b = Vec3.add b a.
Proof.
  unfold Vec3.add, F32.add.
  now rewrite (SFadd_comm _ _ (Vec3.x a)), (SFadd_comm _ _ (Vec3.y a)),
    (SFadd_comm _ _ (Vec3.z a)).
Qed.

(* ===================================================================== *)
(** * WardAnisotropic.h: reciprocity *)

(** X19.  reciprocity of the Ward model.  Exchanging the incoming and the
  outgoing direction gives the same value, bit for bit: the half vector and
  the product [dotLN * dotVN] do not depend on the order. *)
Theorem getResult_reciprocal (exp : float -> float) (PI_F : float)
    (inDir outDir normalDir tangentDir binormalDir : Vec3)
    (roughnessX roughnessY : float) :
  WardAnisotropic.getResult exp PI_F inDir outDir normalDir tangentDir
    binormalDir roughnessX roughnessY
  = WardAnisotropic.getResult exp PI_F outDir inDir normalDir tangentDir
      binormalDir roughnessX roughnessY
  /\ WardAnisotropic.getValue exp PI_F roughnessX roughnessY inDir outDir
     = WardAnisotropic.getValue exp PI_F roughnessX roughnessY outDir inDir.
Proof.
  assert (H : forall n t b,
    WardAnisotropic.getResult exp PI_F inDir outDir n t b roughnessX roughnessY
    = WardAnisotropic.getResult exp PI_F outDir inDir n t b
        roughnessX roughnessY).
  { intros n t b. unfold WardAnisotropic.getResult. cbv zeta.
    rewrite (Vec3_add_comm inDir outDir).
    now rewrite (F32_mul_comm (Vec3.dot inDir n) (Vec3.dot outDir n)). }
  split; [apply H|]. unfold WardAnisotropic.getValue. apply H.
Qed.

(* ===================================================================== *)
(** * Utility.h: fixDownwardDir, then isDownwardDir *)

Lemma fixDownwardDir_z (dir : Vec3) :
  F32.ltb (Vec3.z (Utility.fixDownwardDir dir)) F32.zero = false.
Proof.
  unfold Utility.fixDownwardDir.
  destruct (F32.ltb (Vec3.z dir) F32.zero) eqn:Hz; [|exact Hz].
  cbn [Vec3.x Vec3.y Vec3.z].
  destruct (F32.eqb (Vec3.x dir) F32.zero && F32.eqb (Vec3.y dir) F32.zero).
  - reflexivity.
  - pose proof (normalized_z_zero (Vec3.x dir) (Vec3.y dir)) as H.
    destruct (Vec3.z (Vec3.normalized _)); try contradiction; reflexivity.
Qed.

(** A float that is not below zero is not below [-0.00001] as a double. *)
Lemma not_negative_not_downward (a : float) :
  F32.ltb a F32.zero = false ->
  F64.ltb (F64.of_float a) Utility.minus_0_00001 = false.
Proof.
  destruct a as [s|[|]| |[|] m e]; cbn; try congruence; intros _.
  unfold binary_round.
  destruct (shl_align m e _) as [mz ez].
  pose proof (binary_round_aux_sign F64.prec F64.emax false (Z.pos mz) ez
                loc_Exact) as H.
  destruct (binary_round_aux _ _ _ _ _ _) as [s|s| |s m' e']; subst;
    reflexivity.
Qed.

(** X7.  fixDownwardDir, then isDownwardDir.  A direction that went through
  [fixDownwardDir] is never classified as downward, whatever the vector
  was (NaN included), and fixing it a second time changes nothing. *)
Theorem fixDownwardDir_not_downward (dir : Vec3) :
  Utility.isDownwardDir (Utility.fixDownwardDir dir) = false
  /\ Utility.fixDownwardDir (Utility.fixDownwardDir dir)
     = Utility.fixDownwardDir dir.
Proof.
  pose proof (fixDownwardDir_z dir) as H. split.
  - unfold Utility.isDownwardDir. now apply not_negative_not_downward.
  - unfold Utility.fixDownwardDir at 1. now rewrite H.
Qed.

(* ===================================================================== *)
(** * Sampler.h: the assertion and the two ways to a SampleSet *)

(** X16.  the assertion of the queries.  For every [float] the test
  [inDir.z() >= 0.0], made on doubles, is the test [0 <= z] on the float
  itself: it accepts both zeros, [-0.0] too, and refuses NaN. *)
Theorem z_ge_0_spec (inDir : Vec3) :
  F32.valid (Vec3.z inDir) ->
  Sampler.z_ge_0 inDir = F32.leb F32.zero (Vec3.z inDir)
  /\ (Vec3.z inDir = S754_zero true -> Sampler.z_ge_0 inDir = true)
  /\ (Vec3.z inDir = S754_nan -> Sampler.z_ge_0 inDir = false).
Proof.
  intros Hv. unfold Sampler.z_ge_0.
  split; [|split; intros ->; reflexivity].
  destruct (Vec3.z inDir) as [s|s| |s m e]; try reflexivity.
  destruct (of_float_finite s m e Hv) as (k & _ & ->). reflexivity.
Qed.

Lemma z_ge_0_spec_witness :
  Sampler.z_ge_0 (Vec3.make F32.one F32.zero (S754_zero true))
  = F32.leb F32.zero (S754_zero true)
  /\ (S754_zero true = S754_zero true ->
      Sampler.z_ge_0 (Vec3.make F32.one F32.zero (S754_zero true)) = true)
  /\ (S754_zero true = S754_nan ->
      Sampler.z_ge_0 (Vec3.make F32.one F32.zero (S754_zero true)) = false).
Proof.
  apply (z_ge_0_spec (Vec3.make F32.one F32.zero (S754_zero true))).
  reflexivity.
Defined.

Section SamplerMore.

Context {SampleSet : Type}.
Variable isIsotropic : SampleSet -> bool.

(** X17.  the query by Brdf and the query by coordinate system.  When the Brdf
  holds the sample set and converts the two directions as the coordinate
  system does, the two queries give the same spectrum and the same
  value. *)
Theorem Sampler_Brdf_agrees (CoordSys : CoordSysT)
    (Interpolator : InterpolatorT SampleSet) (samples : SampleSet)
    (brdf : Brdf SampleSet) (inDir outDir : Vec3) (wavelengthIndex : Z) :
  getSampleSet brdf = samples ->
  Brdf_fromXyz brdf inDir outDir = fromXyz CoordSys inDir outDir ->
  Brdf_fromXyz_iso brdf inDir outDir = fromXyz_iso CoordSys inDir outDir ->
  Sampler.getSpectrum_Brdf isIsotropic Interpolator brdf inDir outDir
  = Sampler.getSpectrum isIsotropic CoordSys Interpolator samples inDir outDir
  /\ Sampler.getValue_Brdf isIsotropic Interpolator brdf inDir outDir
       wavelengthIndex
     = Sampler.getValue isIsotropic CoordSys Interpolator samples inDir
         outDir wavelengthIndex.
Proof.
  intros <- H4 H3.
  unfold Sampler.getSpectrum_Brdf, Sampler.getSpectrum,
    Sampler.getValue_Brdf, Sampler.getValue.
  now rewrite H4, H3.
Qed.

(** X18.  a value is a coefficient of the spectrum.  With an interpolator whose
  [getValue] is the coefficient of its [getSpectrum] at the wavelength
  index, the value the Sampler returns is that coefficient of the spectrum
  the Sampler returns, for isotropic and anisotropic grids alike. *)
Theorem Sampler_getValue_of_getSpectrum (CoordSys : CoordSysT)
    (Interpolator : InterpolatorT SampleSet) (samples : SampleSet)
    (inDir outDir : Vec3) (wavelengthIndex : Z) :
  (forall a0 a1 a2 a3,
     Some (Interpolator_getValue Interpolator samples a0 a1 a2 a3
             wavelengthIndex)
     = Interpolator_getSpectrum Interpolator samples a0 a1 a2 a3
       !! Z.to_nat wavelengthIndex) ->
  (forall a0 a2 a3,
     Some (Interpolator_getValue_iso Interpolator samples a0 a2 a3
             wavelengthIndex)
     = Interpolator_getSpectrum_iso Interpolator samples a0 a2 a3
       !! Z.to_nat wavelengthIndex) ->
  forall spectrum,
    Sampler.getSpectrum isIsotropic CoordSys Interpolator samples inDir outDir
    = Returns spectrum ->
    exists value,
      Sampler.getValue isIsotropic CoordSys Interpolator samples inDir outDir
        wavelengthIndex = Returns value
      /\ spectrum !! Z.to_nat wavelengthIndex = Some value.
Proof.
  intros H4 H3 spectrum.
  unfold Sampler.getSpectrum, Sampler.getValue.
  destruct (assert (Sampler.z_ge_0 inDir)) as [[]|f]; cbn; [|discriminate].
  destruct (isIsotropic samples).
  - destruct (fromXyz_iso CoordSys inDir outDir) as [[a0 a2] a3].
    intros [= <-]. eauto.
  - destruct (fromXyz CoordSys inDir outDir) as [[[a0 a1] a2] a3].
    intros [= <-]. eauto.
Qed.

End SamplerMore.


(* ===================================================================== *)
(** * Instances of the statements above *)

Lemma resizeAngles_establishes_wf_witness :
  let this :=
    SampleSet2D.make [[F32.one]] [] [F32.zero] true false
      SampleSet2D.RGB_MODEL [F32.zero] SampleSet2D.UNKNOWN_SOURCE in
  exists this',
    SampleSet2D.resizeAngles (fun _ => F32.zero) this 3 1 = Returns this'
    /\ SampleSet2D.wf this'
    /\ SampleSet2D.wavelengths_ this' = SampleSet2D.wavelengths_ this
    /\ SampleSet2D.colorModel_ this' = SampleSet2D.colorModel_ this
    /\ SampleSet2D.equalIntervalTheta_ this'
       = SampleSet2D.equalIntervalTheta_ this
    /\ SampleSet2D.equalIntervalPhi_ this'
       = SampleSet2D.equalIntervalPhi_ this.
Proof.
  cbv zeta.
  apply (resizeAngles_establishes_wf (fun _ => F32.zero)
           (SampleSet2D.make [[F32.one]] [] [F32.zero] true false
              SampleSet2D.RGB_MODEL [F32.zero] SampleSet2D.UNKNOWN_SOURCE)
           3 1); vm_compute; congruence.
Defined.

Lemma resizeAngles_same_size_witness :
  SampleSet2D.resizeAngles (fun _ => F32.zero)
    (SampleSet2D.make [[F32.one]; [F32.zero]] [F32.zero; F32.one] [F32.zero]
       false false SampleSet2D.MONOCHROMATIC_MODEL [F32.zero]
       SampleSet2D.UNKNOWN_SOURCE) 2 1
  = Returns
      (SampleSet2D.make [[F32.one]; [F32.zero]] [F32.zero; F32.one]
         [F32.zero] false false SampleSet2D.MONOCHROMATIC_MODEL [F32.zero]
         SampleSet2D.UNKNOWN_SOURCE).
Proof.
  apply (resizeAngles_same_size (fun _ => F32.zero)
           (SampleSet2D.make [[F32.one]; [F32.zero]] [F32.zero; F32.one]
              [F32.zero] false false SampleSet2D.MONOCHROMATIC_MODEL
              [F32.zero] SampleSet2D.UNKNOWN_SOURCE)).
  - reflexivity.
  - cbn. lia.
  - cbn. lia.
  - vm_compute. congruence.
Defined.

Lemma resizeWavelengths_outcomes_witness :
  SampleSet2D.resizeWavelengths (fun _ => F32.zero)
    (SampleSet2D.make [[F32.one]] [F32.zero; F32.one] [F32.zero] false false
       SampleSet2D.SPECTRAL_MODEL [F32.zero] SampleSet2D.UNKNOWN_SOURCE) 3
  = Aborts out_of_range.
Proof.
  apply (resizeWavelengths_outcomes (fun _ => F32.zero)
           (SampleSet2D.make [[F32.one]] [F32.zero; F32.one] [F32.zero] false
              false SampleSet2D.SPECTRAL_MODEL [F32.zero]
              SampleSet2D.UNKNOWN_SOURCE) 3).
  - lia.
  - cbn. lia.
Defined.

Lemma resizeAngles_resizeWavelengths_witness :
  exists this',
    (this1 ← SampleSet2D.resizeAngles (fun _ => F32.zero)
               (SampleSet2D.make [] [] [] false false
                  SampleSet2D.SPECTRAL_MODEL [] SampleSet2D.UNKNOWN_SOURCE)
               2 2;
     SampleSet2D.resizeWavelengths (fun _ => F32.zero) this1 5)
    = Returns this'
    /\ SampleSet2D.wf this'
    /\ Z.of_nat (length (SampleSet2D.thetaAngles_ this')) = 2
    /\ Z.of_nat (length (SampleSet2D.phiAngles_ this')) = 2
    /\ Forall (fun sp : Spectrum => Z.of_nat (length sp) = 5)
              (SampleSet2D.spectra_ this')
    /\ Z.of_nat (length (SampleSet2D.wavelengths_ this')) = 5.
Proof.
  apply (resizeAngles_resizeWavelengths (fun _ => F32.zero)
           (SampleSet2D.make [] [] [] false false SampleSet2D.SPECTRAL_MODEL
              [] SampleSet2D.UNKNOWN_SOURCE) 2 2 5);
    vm_compute; congruence.
Defined.

Lemma clampAngles_spec_witness :
  let this :=
    SampleSet2D.make [[F32.one]; [F32.one]]
      [F32.opp F32.one; F32.of_Z 7] [S754_nan] false false
      SampleSet2D.MONOCHROMATIC_MODEL [F32.zero] SampleSet2D.UNKNOWN_SOURCE in
  let this' := SampleSet2D.clampAngles F32.one (F32.of_Z 2) this in
  Forall (fun a => F32.ltb a F32.zero = false /\ F32.ltb F32.one a = false)
         (SampleSet2D.thetaAngles_ this')
  /\ Forall (fun a => F32.ltb a F32.zero = false
                      /\ F32.ltb (F32.of_Z 2) a = false)
            (SampleSet2D.phiAngles_ this')
  /\ length (SampleSet2D.thetaAngles_ this')
     = length (SampleSet2D.thetaAngles_ this)
  /\ length (SampleSet2D.phiAngles_ this')
     = length (SampleSet2D.phiAngles_ this)
  /\ SampleSet2D.spectra_ this' = SampleSet2D.spectra_ this
  /\ SampleSet2D.wavelengths_ this' = SampleSet2D.wavelengths_ this
  /\ (SampleSet2D.wf this -> SampleSet2D.wf this')
  /\ SampleSet2D.clampAngles F32.one (F32.of_Z 2) this' = this'.
Proof.
  cbv zeta.
  apply (clampAngles_spec F32.one (F32.of_Z 2)); reflexivity.
Defined.

Lemma ctor_outcomes_witness :
  SampleSet2D.ctor (fun _ => F32.zero) (fun n a _ => replicate (Z.to_nat n) a)
    (fun _ => true) F32.one F32.one 2 3 SampleSet2D.SPECTRAL_MODEL 0 false
  = Aborts assertion_failed.
Proof.
  apply (ctor_outcomes (fun _ => F32.zero)
           (fun n a _ => replicate (Z.to_nat n) a) (fun _ => true)
           F32.one F32.one 2 3 SampleSet2D.SPECTRAL_MODEL 0 false);
    first [reflexivity | vm_compute; congruence].
Defined.

Lemma ctor_grid_witness :
  exists this,
    SampleSet2D.ctor (fun _ => F32.zero)
      (fun n a _ => replicate (Z.to_nat n) a) (fun _ => true)
      F32.one F32.one 2 1 SampleSet2D.MONOCHROMATIC_MODEL 31 true
    = Returns this
    /\ SampleSet2D.wf this
    /\ Z.of_nat (length (SampleSet2D.thetaAngles_ this)) = 2
    /\ Z.of_nat (length (SampleSet2D.phiAngles_ this)) = 1
    /\ (true = true ->
        SampleSet2D.thetaAngles_ this = replicate (Z.to_nat 2) F32.zero
        /\ SampleSet2D.phiAngles_ this = replicate (Z.to_nat 1) F32.zero
        /\ SampleSet2D.equalIntervalTheta_ this = true
        /\ SampleSet2D.equalIntervalPhi_ this = true)
    /\ (true = false ->
        SampleSet2D.equalIntervalTheta_ this = false
        /\ SampleSet2D.equalIntervalPhi_ this = false)
    /\ (SampleSet2D.MONOCHROMATIC_MODEL <> SampleSet2D.SPECTRAL_MODEL ->
        Forall (fun w => w = F32.zero) (SampleSet2D.wavelengths_ this)).
Proof.
  apply (ctor_grid (fun _ => F32.zero)
           (fun n a _ => replicate (Z.to_nat n) a) (fun _ => true)
           F32.one F32.one 2 1 SampleSet2D.MONOCHROMATIC_MODEL 31 true).
  - intros n a b _. apply length_replicate.
  - lia.
  - lia.
  - vm_compute. congruence.
  - discriminate.
Defined.

Lemma Sampler_Brdf_agrees_witness :
  let C :=
    Build_CoordSysT
      (fun a0 a1 a2 a3 =>
         (Vec3.make a0 a1 F32.zero, Vec3.make a2 a3 F32.zero))
      (fun i o => (Vec3.x i, Vec3.y i, Vec3.x o, Vec3.y o))
      (fun i o => (Vec3.x i, Vec3.x o, Vec3.y o)) in
  let I : InterpolatorT bool :=
    Build_InterpolatorT bool
      (fun _ a0 a1 a2 a3 => [a0; a1; a2; a3]) (fun _ a0 a2 a3 => [a0; a2; a3])
      (fun _ a0 _ _ _ _ => a0) (fun _ a0 _ _ _ => a0)
      (fun _ theta phi => [theta; phi]) (fun _ theta => [theta]) in
  let brdf := Build_Brdf bool true (fromXyz C) (fromXyz_iso C) in
  let d := Vec3.make F32.zero F32.zero F32.one in
  Sampler.getSpectrum_Brdf (fun b : bool => b) I brdf d d
  = Sampler.getSpectrum (fun b : bool => b) C I true d d
  /\ Sampler.getValue_Brdf (fun b : bool => b) I brdf d d 0
     = Sampler.getValue (fun b : bool => b) C I true d d 0.
Proof.
  cbv zeta. apply Sampler_Brdf_agrees; reflexivity.
Defined.

Lemma Sampler_getValue_of_getSpectrum_witness :
  let C :=
    Build_CoordSysT
      (fun a0 a1 a2 a3 =>
         (Vec3.make a0 a1 F32.zero, Vec3.make a2 a3 F32.zero))
      (fun i o => (Vec3.x i, Vec3.y i, Vec3.x o, Vec3.y o))
      (fun i o => (Vec3.x i, Vec3.x o, Vec3.y o)) in
  let I : InterpolatorT bool :=
    Build_InterpolatorT bool
      (fun _ a0 a1 a2 a3 => [a0; a1; a2; a3]) (fun _ a0 a2 a3 => [a0; a2; a3])
      (fun _ a0 _ _ _ _ => a0) (fun _ a0 _ _ _ => a0)
      (fun _ theta phi => [theta; phi]) (fun _ theta => [theta]) in
  let d := Vec3.make F32.zero F32.zero F32.one in
  exists value,
    Sampler.getValue (fun b : bool => b) C I false d d 0 = Returns value
    /\ [F32.zero; F32.zero; F32.zero; F32.zero] !! Z.to_nat 0 = Some value.
Proof.
  cbv zeta.
  apply (Sampler_getValue_of_getSpectrum (fun b : bool => b));
    reflexivity.
Defined.

(* ===================================================================== *)
(** * Utility.h: what fixDownwardDir returns *)











Lemma add_not_negative (a b : float) :
  not_negative a -> not_negative b -> not_negative (F32.add a b).
Proof.
  destruct a as [sa|sa| |sa ma ea], b as [sb|sb| |sb mb eb]; cbn;
    try (intros -> ->; reflexivity); try (intros; subst; auto; fail).
  intros -> ->. unfold F32.add, SFadd. cbn [cond_Zopp].
  set (ez := Z.min ea eb).
  destruct (shl_align ma ea ez) as [m1 e1], (shl_align mb eb ez) as [m2 e2].
  cbn [fst]. change (Z.pos m1 + Z.pos m2) with (Z.pos (m1 + m2)).
  unfold binary_normalize, binary_round.
  destruct (shl_align (m1 + m2) ez _) as [mz ez'].
  pose proof (binary_round_aux_sign F32.prec F32.emax false (Z.pos mz) ez'
                loc_Exact) as H.
  destruct (binary_round_aux _ _ _ _ _ _); exact H.
Qed.







